(** * Expense ledger service (src/main.py): a shallow embedding

    The service exposes five tool operations, each of which builds one
    request for a remote table and turns whatever happens into a result
    structure.  The embedding has three layers:

    - [Py] and [PySorted]: the few Python built-ins the operations rely on
      (exception classes, [str] of an integer, [datetime.strptime] for the
      format [%Y-%m-%d], the stable [sorted]);
    - [Store]: the requests of the query builder ([insert], [select] with
      [gte]/[lte]/[eq]/[order], [update], [delete]) and a reference
      interpretation of them over a table of expense records;
    - the operations [add_expense], [list_expenses], [summarize],
      [delete_expense], [update_expense], written as programs that may issue
      store requests and may raise. *)

From Stdlib Require Import ZArith List String Ascii Bool Lia.
From Stdlib Require Import Sorted Permutation DecimalString Floats.
Import ListNotations.

Local Open Scope string_scope.
Local Open Scope Z_scope.

(** ** Amounts

    [amount] is a Python [float].  The operations only ever add amounts
    ([total_amount += amount], starting from the integer [0]) and compare
    totals with [<] (inside [sorted]).  The development is parametric in
    these three ingredients; [float_amount] below is the binary64
    instance, [Z_amount] an exact one. *)

Class Amount : Type := {
  num : Type;
  num_zero : num;                      (* the initial [0] of [total_amount] *)
  num_add : num -> num -> num;         (* [+] *)
  num_ltb : num -> num -> bool         (* [<] *)
}.

Definition float_amount : Amount := {|
  num := float;
  num_zero := 0%float;
  num_add := PrimFloat.add;
  num_ltb := PrimFloat.ltb
|}.

Definition Z_amount : Amount := {|
  num := Z;
  num_zero := 0;
  num_add := Z.add;
  num_ltb := Z.ltb
|}.

(** The laws of [<] that make "sorted" meaningful: a strict weak order.
    Python floats satisfy them as long as no NaN is involved. *)
Class AmountOrder (A : Amount) : Prop := {
  num_ltb_asym : forall a b : num, num_ltb a b = true -> num_ltb b a = false;
  num_ltb_negtrans : forall a b c : num,
      num_ltb a b = false -> num_ltb b c = false -> num_ltb a c = false
}.

(** ** Python built-ins *)

Module Py.

(** Exception classes below [Exception] that the operations can meet:
    [ValueError] ([strptime]), [KeyError] (a missing key in a row),
    and [APIError], standing for whatever the store client raises. *)
Inductive exn_class := Exception | ValueError | KeyError | APIError.

Record exn := mk_exn { exn_cls : exn_class; exn_str : string }.

(** [isinstance(e, c)] on the class hierarchy: every class derives from
    [Exception], and no listed class derives from another. *)
Definition subclass (c d : exn_class) : bool :=
  match d, c with
  | Exception, _ => true
  | ValueError, ValueError => true
  | KeyError, KeyError => true
  | APIError, APIError => true
  | _, _ => false
  end.

Definition isinstance (e : exn) (c : exn_class) : bool :=
  subclass (exn_cls e) c.

(** [str(n)] for an [int]. *)
Definition str_int (z : Z) : string := NilZero.string_of_int (Z.to_int z).

(** [repr(s)] for a [str] of ASCII characters.  The text is put between
    single quotes, or between double quotes when it holds a single quote
    and no double quote.  The quote in use and the backslash are written
    after a backslash; tab, newline and carriage return are written as
    backslash and [t], [n], [r]; any other control character as backslash,
    [x] and its two hexadecimal digits; every other character as it is. *)
Definition single_quote : ascii := ascii_of_nat 39.
Definition double_quote : ascii := ascii_of_nat 34.
Definition backslash : ascii := ascii_of_nat 92.

Fixpoint has_char (c : ascii) (s : string) : bool :=
  match s with
  | EmptyString => false
  | String a s' => Ascii.eqb a c || has_char c s'
  end.

Definition hex_digit (n : nat) : ascii :=
  match String.get n "0123456789abcdef" with
  | Some c => c
  | None => "0"%char
  end.

Definition escape_char (quote c : ascii) : string :=
  let n := nat_of_ascii c in
  if Ascii.eqb c quote || Ascii.eqb c backslash
  then String backslash (String c "")
  else if (n =? 9)%nat then String backslash "t"
  else if (n =? 10)%nat then String backslash "n"
  else if (n =? 13)%nat then String backslash "r"
  else if ((n <? 32) || (n =? 127))%nat
  then String backslash
              (String "x" (String (hex_digit (n / 16))
                                  (String (hex_digit (n mod 16)) "")))
  else String c "".

Fixpoint escape (quote : ascii) (s : string) : string :=
  match s with
  | EmptyString => ""
  | String c s' => escape_char quote c ++ escape quote s'
  end.

Definition repr (s : string) : string :=
  let quote := if has_char single_quote s && negb (has_char double_quote s)
               then double_quote else single_quote in
  String quote (escape quote s ++ String quote "").

(** *** Regular expressions without repetition, as [_strptime] builds
    them for a format: leftmost alternative first, with backtracking. *)
Inductive re :=
| Lit (c : ascii)                    (* a literal character *)
| Digit                              (* \d *)
| Range (lo hi : ascii)              (* [lo-hi] *)
| Cat (a b : re)
| Alt (a b : re)
| Group (name : string) (r : re).    (* (?P<name>r) *)

Definition captures := list (string * string).

(** A string is a string of bytes, and the text modelled is text of ASCII
    characters: [\d] is one of [0]-[9].  (On other text CPython's [\d]
    and [int] also take the decimal digits of other scripts, which this
    model leaves out.) *)
Definition is_digit (c : ascii) : bool :=
  ((48 <=? nat_of_ascii c) && (nat_of_ascii c <=? 57))%nat.



Definition in_range (lo hi c : ascii) : bool :=
  ((nat_of_ascii lo <=? nat_of_ascii c) && (nat_of_ascii c <=? nat_of_ascii hi))%nat.

Definition one_char (p : ascii -> bool) (s : string) {R}
           (k : string -> option R) : option R :=
  match s with
  | String c s' => if p c then k s' else None
  | EmptyString => None
  end.

(** The text consumed between [s] and its suffix [s']. *)
Definition consumed (s s' : string) : string :=
  substring 0 (String.length s - String.length s') s.

Fixpoint re_match {R} (r : re) (s : string) (caps : captures)
         (k : string -> captures -> option R) : option R :=
  match r with
  | Lit c => one_char (Ascii.eqb c) s (fun s' => k s' caps)
  | Digit => one_char is_digit s (fun s' => k s' caps)
  | Range lo hi => one_char (in_range lo hi) s (fun s' => k s' caps)
  | Cat a b => re_match a s caps (fun s' caps' => re_match b s' caps' k)
  | Alt a b =>
      match re_match a s caps k with
      | Some x => Some x
      | None => re_match b s caps k
      end
  | Group name a =>
      re_match a s caps (fun s' caps' => k s' ((name, consumed s s') :: caps'))
  end.

(** [re.match]: the captures and the unmatched rest of the input. *)
Definition re_match_prefix (r : re) (s : string) : option (captures * string) :=
  re_match r s [] (fun s' caps => Some (caps, s')).

Definition ch (c : string) : re :=
  match c with String a _ => Lit a | EmptyString => Lit " "%char end.
Definition rng (lo hi : string) : re :=
  match lo, hi with
  | String a _, String b _ => Range a b
  | _, _ => Lit " "%char
  end.

(** The directives of [TimeRE] used by the format [%Y-%m-%d]. *)
Definition re_Y : re :=                     (* (?P<Y>\d\d\d\d) *)
  Group "Y" (Cat Digit (Cat Digit (Cat Digit Digit))).
Definition re_m : re :=                     (* (?P<m>1[0-2]|0[1-9]|[1-9]) *)
  Group "m" (Alt (Cat (ch "1") (rng "0" "2"))
            (Alt (Cat (ch "0") (rng "1" "9"))
                 (rng "1" "9"))).
Definition re_d : re :=     (* (?P<d>3[0-1]|[1-2]\d|0[1-9]|[1-9]| [1-9]) *)
  Group "d" (Alt (Cat (ch "3") (rng "0" "1"))
            (Alt (Cat (rng "1" "2") Digit)
            (Alt (Cat (ch "0") (rng "1" "9"))
            (Alt (rng "1" "9")
                 (Cat (ch " ") (rng "1" "9")))))).

Definition format_regex : re :=
  Cat re_Y (Cat (ch "-") (Cat re_m (Cat (ch "-") re_d))).

Fixpoint lookup (name : string) (caps : captures) : string :=
  match caps with
  | [] => ""
  | (n, v) :: rest => if String.eqb n name then v else lookup name rest
  end.

(** [int(s)] on a captured group: decimal digits, blanks ignored. *)
Fixpoint int_digits (s : string) (acc : Z) : Z :=
  match s with
  | EmptyString => acc
  | String c s' =>
      if is_digit c then int_digits s' (10 * acc + (Z.of_nat (nat_of_ascii c) - 48))
      else int_digits s' acc
  end.
Definition int_of (s : string) : Z := int_digits s 0.

Definition is_leap (y : Z) : bool :=
  (y mod 4 =? 0) && (negb (y mod 100 =? 0) || (y mod 400 =? 0)).

Definition days_in_month (y m : Z) : Z :=
  if m =? 2 then (if is_leap y then 29 else 28)
  else if (m =? 4) || (m =? 6) || (m =? 9) || (m =? 11) then 30
  else 31.

(** [datetime.strptime(s, "%Y-%m-%d")] on text of ASCII characters: the
    date it denotes, or the [ValueError] it raises. *)
Definition strptime (data_string : string) : exn + (Z * Z * Z) :=
  match re_match_prefix format_regex data_string with
  | None =>
      inl (mk_exn ValueError
             ("time data " ++ repr data_string
                ++ " does not match format '%Y-%m-%d'"))
  | Some (caps, rest) =>
      if negb (String.eqb rest "") then
        inl (mk_exn ValueError ("unconverted data remains: " ++ rest))
      else
        let year := int_of (lookup "Y" caps) in
        let month := int_of (lookup "m" caps) in
        let day := int_of (lookup "d" caps) in
        if year <? 1 then
          inl (mk_exn ValueError ("year " ++ str_int year ++ " is out of range"))
        else if days_in_month year month <? day then
          inl (mk_exn ValueError "day is out of range for month")
        else inr (year, month, day)
  end.

End Py.

Module PySorted.

(** [sorted(l, key=key, reverse=reverse)], where keys are compared with
    [ltb] only.  The sort is stable in both directions: an element moves
    behind a later one only when the order strictly requires it.  (Any
    stable sort returns this list when [ltb] is a strict weak order on the
    keys.) *)
Section Sorted.
Context {X K : Type} (ltb : K -> K -> bool) (key : X -> K) (reverse : bool).

Definition must_follow (x y : X) : bool :=
  if reverse then ltb (key x) (key y) else ltb (key y) (key x).

Fixpoint insert (x : X) (l : list X) : list X :=
  match l with
  | [] => [x]
  | y :: l' => if must_follow x y then y :: insert x l' else x :: y :: l'
  end.

Definition sorted (l : list X) : list X := fold_right insert [] l.
End Sorted.

(** [ltb] behaves as a strict weak order on the keys [ks]: it is
    asymmetric, and "not less than" is transitive.  For Python floats this
    holds on any keys that are not NaN. *)
Definition strict_weak_on {K : Type} (ltb : K -> K -> bool) (ks : list K) : Prop :=
  (forall a b, In a ks -> In b ks -> ltb a b = true -> ltb b a = false)
  /\ (forall a b c, In a ks -> In b ks -> In c ks ->
                    ltb a b = false -> ltb b c = false -> ltb a c = false).

End PySorted.

(** ** The store: rows, queries and a reference table *)

Module Store.
Section WithAmount.
Context {A : Amount}.

(** The columns of the table (see the SQL in [init_db]'s docstring). *)
Inductive column :=
| col_id | col_date | col_amount | col_category
| col_subcategory | col_note | col_created_at.

(** A stored record: every column has a value. *)
Record expense := mk_expense {
  e_id : Z;                  (* BIGSERIAL PRIMARY KEY *)
  e_date : string;           (* TEXT NOT NULL *)
  e_amount : num;            (* REAL NOT NULL *)
  e_category : string;       (* TEXT NOT NULL *)
  e_subcategory : string;    (* TEXT DEFAULT '' *)
  e_note : string;           (* TEXT DEFAULT '' *)
  e_created_at : string      (* TIMESTAMP WITH TIME ZONE DEFAULT NOW() *)
}.

(** A row as the client sees it, in either direction: a Python [dict]
    whose keys are column names, each key present or absent. *)
Record row := mk_row {
  r_id : option Z;
  r_date : option string;
  r_amount : option num;
  r_category : option string;
  r_subcategory : option string;
  r_note : option string;
  r_created_at : option string
}.

Definition empty_row : row := mk_row None None None None None None None.

(** [d["date"] = v] and its siblings. *)
Definition set_date (v : string) (d : row) : row :=
  mk_row (r_id d) (Some v) (r_amount d) (r_category d)
         (r_subcategory d) (r_note d) (r_created_at d).
Definition set_amount (v : num) (d : row) : row :=
  mk_row (r_id d) (r_date d) (Some v) (r_category d)
         (r_subcategory d) (r_note d) (r_created_at d).
Definition set_category (v : string) (d : row) : row :=
  mk_row (r_id d) (r_date d) (r_amount d) (Some v)
         (r_subcategory d) (r_note d) (r_created_at d).
Definition set_subcategory (v : string) (d : row) : row :=
  mk_row (r_id d) (r_date d) (r_amount d) (r_category d)
         (Some v) (r_note d) (r_created_at d).
Definition set_note (v : string) (d : row) : row :=
  mk_row (r_id d) (r_date d) (r_amount d) (r_category d)
         (r_subcategory d) (Some v) (r_created_at d).

(** [not d]: the dict has no key. *)
Definition is_empty (d : row) : bool :=
  match r_id d, r_date d, r_amount d, r_category d,
        r_subcategory d, r_note d, r_created_at d with
  | None, None, None, None, None, None, None => true
  | _, _, _, _, _, _, _ => false
  end.

(** Values that appear in filters. *)
Inductive value := VInt (z : Z) | VNum (x : num) | VStr (s : string).

Inductive criterion :=
| f_gte (c : column) (v : value)
| f_lte (c : column) (v : value)
| f_eq (c : column) (v : value).

Inductive verb :=
| v_none
| v_select (columns : list column)
| v_insert (data : row)
| v_update (data : row)
| v_delete.

(** What the query builder has accumulated when [.execute()] is called. *)
Record query := mk_query {
  q_table : string;
  q_verb : verb;
  q_filters : list criterion;
  q_order : list (column * bool)     (* column, desc *)
}.

(** The builder's methods, in the order the source chains them. *)
Definition table (name : string) : query := mk_query name v_none [] [].
Definition with_verb (v : verb) (q : query) : query :=
  mk_query (q_table q) v (q_filters q) (q_order q).
Definition select (columns : list column) : query -> query :=
  with_verb (v_select columns).
Definition insert (data : row) : query -> query := with_verb (v_insert data).
Definition update (data : row) : query -> query := with_verb (v_update data).
Definition delete : query -> query := with_verb v_delete.
Definition add_filter (f : criterion) (q : query) : query :=
  mk_query (q_table q) (q_verb q) (q_filters q ++ [f]) (q_order q).
Definition gte (c : column) (v : value) : query -> query := add_filter (f_gte c v).
Definition lte (c : column) (v : value) : query -> query := add_filter (f_lte c v).
Definition eq (c : column) (v : value) : query -> query := add_filter (f_eq c v).
Definition order (c : column) (desc : bool) (q : query) : query :=
  mk_query (q_table q) (q_verb q) (q_filters q) (q_order q ++ [(c, desc)]).

(** The outcome of [.execute()]: the response's [data], or the exception
    the client raised. *)
Definition reply : Type := Py.exn + list row.

(** *** Reference table

    The remote table is an external collaborator; what follows is its
    contract (section 6 of the specification and the schema in [init_db]'s
    docstring) over a list of records kept in insertion order.  Text is
    ordered bytewise, which on zero-padded ISO dates is the calendar
    order. *)

Record db := mk_db {
  rows : list expense;
  next_id : Z;                       (* the BIGSERIAL sequence *)
  now : string                       (* the store's clock, for NOW() *)
}.

Definition table_name : string := "expenses_test".

Definition num_compare (a b : num) : comparison :=
  if num_ltb a b then Lt else if num_ltb b a then Gt else Datatypes.Eq.

Definition col_value (c : column) (e : expense) : value :=
  match c with
  | col_id => VInt (e_id e)
  | col_date => VStr (e_date e)
  | col_amount => VNum (e_amount e)
  | col_category => VStr (e_category e)
  | col_subcategory => VStr (e_subcategory e)
  | col_note => VStr (e_note e)
  | col_created_at => VStr (e_created_at e)
  end.

(** Comparison of two values of the same type; [None] on a type clash. *)
Definition value_compare (v w : value) : option comparison :=
  match v, w with
  | VInt a, VInt b => Some (Z.compare a b)
  | VNum a, VNum b => Some (num_compare a b)
  | VStr a, VStr b => Some (String.compare a b)
  | _, _ => None
  end.

Definition filter_column (f : criterion) : column :=
  match f with f_gte c _ | f_lte c _ | f_eq c _ => c end.
Definition filter_value (f : criterion) : value :=
  match f with f_gte _ v | f_lte _ v | f_eq _ v => v end.

(** The filter's value has the type of its column. *)
Definition well_typed (f : criterion) : bool :=
  match filter_column f, filter_value f with
  | col_id, VInt _ => true
  | col_amount, VNum _ => true
  | col_id, _ | col_amount, _ => false
  | _, VStr _ => true
  | _, _ => false
  end.

Definition holds (e : expense) (f : criterion) : bool :=
  match value_compare (col_value (filter_column f) e) (filter_value f) with
  | None => false
  | Some r =>
      match f, r with
      | f_gte _ _, Lt => false
      | f_gte _ _, _ => true
      | f_lte _ _, Gt => false
      | f_lte _ _, _ => true
      | f_eq _ _, Datatypes.Eq => true
      | f_eq _ _, _ => false
      end
  end.

Definition matches (fs : list criterion) (e : expense) : bool :=
  forallb (holds e) fs.

(** ORDER BY: compare on the first key, then on the next ones. *)
Definition col_compare (c : column) (a b : expense) : comparison :=
  match c with
  | col_id => Z.compare (e_id a) (e_id b)
  | col_date => String.compare (e_date a) (e_date b)
  | col_amount => num_compare (e_amount a) (e_amount b)
  | col_category => String.compare (e_category a) (e_category b)
  | col_subcategory => String.compare (e_subcategory a) (e_subcategory b)
  | col_note => String.compare (e_note a) (e_note b)
  | col_created_at => String.compare (e_created_at a) (e_created_at b)
  end.

Fixpoint order_compare (os : list (column * bool)) (a b : expense) : comparison :=
  match os with
  | [] => Datatypes.Eq
  | (c, desc) :: os' =>
      match (if desc then CompOpp (col_compare c a b) else col_compare c a b) with
      | Datatypes.Eq => order_compare os' a b
      | r => r
      end
  end.

Fixpoint insert_sorted (os : list (column * bool)) (x : expense) (l : list expense)
  : list expense :=
  match l with
  | [] => [x]
  | y :: l' =>
      match order_compare os x y with
      | Gt => y :: insert_sorted os x l'
      | _ => x :: y :: l'
      end
  end.

Definition order_by (os : list (column * bool)) (l : list expense) : list expense :=
  fold_right (insert_sorted os) [] l.

Definition has_column (c : column) (cs : list column) : bool :=
  existsb (fun c' => match c, c' with
                     | col_id, col_id | col_date, col_date
                     | col_amount, col_amount | col_category, col_category
                     | col_subcategory, col_subcategory | col_note, col_note
                     | col_created_at, col_created_at => true
                     | _, _ => false
                     end) cs.

Definition pick {T} (c : column) (cs : list column) (v : T) : option T :=
  if has_column c cs then Some v else None.

(** The JSON object for a record, restricted to the selected columns. *)
Definition project (cs : list column) (e : expense) : row :=
  mk_row (pick col_id cs (e_id e)) (pick col_date cs (e_date e))
         (pick col_amount cs (e_amount e)) (pick col_category cs (e_category e))
         (pick col_subcategory cs (e_subcategory e)) (pick col_note cs (e_note e))
         (pick col_created_at cs (e_created_at e)).

Definition all_columns : list column :=
  [col_id; col_date; col_amount; col_category; col_subcategory; col_note;
   col_created_at].

Definition representation (e : expense) : row := project all_columns e.

Definition or_default {T} (o : option T) (d : T) : T :=
  match o with Some v => v | None => d end.

(** UPDATE ... SET: the keys present in [data] overwrite the record. *)
Definition patch (data : row) (e : expense) : expense :=
  mk_expense (or_default (r_id data) (e_id e))
             (or_default (r_date data) (e_date e))
             (or_default (r_amount data) (e_amount e))
             (or_default (r_category data) (e_category e))
             (or_default (r_subcategory data) (e_subcategory e))
             (or_default (r_note data) (e_note e))
             (or_default (r_created_at data) (e_created_at e)).

Definition ids (l : list expense) : list Z := map e_id l.

Fixpoint unique (l : list Z) : bool :=
  match l with
  | [] => true
  | x :: l' => negb (existsb (Z.eqb x) l') && unique l'
  end.

Definition api_error (msg : string) : Py.exn := Py.mk_exn Py.APIError msg.

(** Modelled from the spec: the remote table and its client are not part
    of the repository.  [execute] answers a query as section 6 of the
    specification describes the store: insert-one returning the inserted
    row with its assigned [id] and [created_at]; select with range and
    equality criteria, multi-key ordering and column projection;
    update-by-criteria returning the affected rows; delete-by-criteria. *)
Definition execute (q : query) (d : db) : reply * db :=
  if negb (String.eqb (q_table q) table_name) then
    (inl (api_error "relation does not exist"), d)
  else if negb (forallb well_typed (q_filters q)) then
    (inl (api_error "invalid input syntax"), d)
  else
    match q_verb q with
    | v_none => (inl (api_error "no operation"), d)
    | v_select cs =>
        (inr (map (project cs)
                  (order_by (q_order q) (filter (matches (q_filters q)) (rows d)))),
         d)
    | v_insert data =>
        match r_date data, r_amount data, r_category data with
        | Some dt, Some am, Some cat =>
            let d' := match r_id data with
                      | Some _ => d
                      | None => mk_db (rows d) (next_id d + 1) (now d)
                      end in
            let e := mk_expense (or_default (r_id data) (next_id d)) dt am cat
                                (or_default (r_subcategory data) "")
                                (or_default (r_note data) "")
                                (or_default (r_created_at data) (now d)) in
            if existsb (Z.eqb (e_id e)) (ids (rows d)) then
              (inl (api_error "duplicate key value violates unique constraint"), d')
            else
              (inr [representation e], mk_db (rows d ++ [e]) (next_id d') (now d'))
        | _, _, _ =>
            (inl (api_error "null value violates not-null constraint"), d)
        end
    | v_update data =>
        let upd := fun e => if matches (q_filters q) e then patch data e else e in
        let rows' := map upd (rows d) in
        if match r_id data with Some _ => negb (unique (ids rows')) | None => false end
        then (inl (api_error "duplicate key value violates unique constraint"), d)
        else
          (inr (map representation
                    (map (patch data) (filter (matches (q_filters q)) (rows d)))),
           mk_db rows' (next_id d) (now d))
    | v_delete =>
        (inr (map representation (filter (matches (q_filters q)) (rows d))),
         mk_db (filter (fun e => negb (matches (q_filters q) e)) (rows d))
               (next_id d) (now d))
    end.

(** The store's own invariant: ids are unique and all below the
    sequence's next value. *)
Definition db_ok (d : db) : Prop :=
  NoDup (ids (rows d)) /\ Forall (fun i => i < next_id d) (ids (rows d)).

Definition empty_db (clock : string) : db := mk_db [] 1 clock.

End WithAmount.
End Store.

(** ** Programs: store calls and exceptions

    An operation is a program that either is finished or calls
    [.execute()] on a query and goes on with the reply.  A finished Python
    computation has an outcome: a value, or a raised exception. *)

Section Programs.
Context {A : Amount}.

Inductive prog (R : Type) : Type :=
| Ret (r : R)
| Execute (q : Store.query) (k : Store.reply -> prog R).
Arguments Ret {R} r.
Arguments Execute {R} q k.

Fixpoint prog_bind {R T} (p : prog R) (f : R -> prog T) : prog T :=
  match p with
  | Ret r => f r
  | Execute q k => Execute q (fun rep => prog_bind (k rep) f)
  end.

(** A Python computation: its outcome is [inl e] when [e] was raised. *)
Definition py (R : Type) : Type := prog (Py.exn + R).

Definition ret {R} (r : R) : py R := Ret (inr r).
Definition raise {R} (e : Py.exn) : py R := Ret (inl e).
Definition bind {R T} (p : py R) (f : R -> py T) : py T :=
  prog_bind p (fun o => match o with inl e => Ret (inl e) | inr r => f r end).

(** A built-in that returns or raises without touching the store. *)
Definition lift {R} (o : Py.exn + R) : py R := Ret o.

(** [query.execute()]: the response's rows, or the client's exception. *)
Definition execute (q : Store.query) : py (list Store.row) :=
  Execute q (fun rep => Ret rep).

(** [try: body  except c1 as e: h1  except c2 as e: h2 ...]: the first
    clause whose class the exception is an instance of handles it; with
    no such clause the exception propagates. *)
Fixpoint dispatch {R} (clauses : list (Py.exn_class * (Py.exn -> py R)))
         (e : Py.exn) : py R :=
  match clauses with
  | [] => raise e
  | (c, h) :: rest => if Py.isinstance e c then h e else dispatch rest e
  end.

Definition try_except {R} (body : py R)
           (clauses : list (Py.exn_class * (Py.exn -> py R))) : py R :=
  prog_bind body (fun o => match o with
                           | inl e => dispatch clauses e
                           | inr r => ret r
                           end).

(** Running a program against a store: [handle] answers each query and
    moves the store's state. *)
Fixpoint run {S R} (handle : Store.query -> S -> Store.reply * S)
         (p : prog R) (s : S) : R * S :=
  match p with
  | Ret r => (r, s)
  | Execute q k => let (rep, s') := handle q s in run handle (k rep) s'
  end.

(** The queries a program sends during that run, in order. *)
Fixpoint calls {S R} (handle : Store.query -> S -> Store.reply * S)
         (p : prog R) (s : S) : list Store.query :=
  match p with
  | Ret _ => []
  | Execute q k => let (rep, s') := handle q s in q :: calls handle (k rep) s'
  end.

End Programs.

Arguments Ret {A R} r.
Arguments Execute {A R} q k.

Notation "x <- c1 ;; c2" := (bind c1 (fun x => c2))
  (at level 61, c1 at next level, right associativity).
Notation "' pat <- c1 ;; c2" := (bind c1 (fun x => match x with pat => c2 end))
  (at level 61, pat pattern, c1 at next level, right associativity).

(** ** The service (src/main.py) *)

Section Service.
Context {A : Amount}.
Import Store (row, mk_row, r_id, r_date, r_amount, r_category,
              r_subcategory, r_note, r_created_at,
              col_id, col_date, col_amount, col_category,
              col_subcategory, col_note, VInt, VStr, VNum).

(** An entry of a summary: [{"category": ..., "total_amount": ...,
    "count": ...}]. *)
Record entry := mk_entry {
  category : string;
  total_amount : num;
  count : Z
}.

(** What an operation hands back: a dict with a ["status"] and a
    ["message"], possibly more keys, or a bare list. *)
Inductive payload :=
| no_payload
| added (id : Z) (data : row)        (* "id": ..., "data": {...} *)
| updated (data : list row).         (* "data": [...] *)

Inductive result :=
| Envelope (status : string) (message : string) (extra : payload)
| Sequence (data : list row)
| SummarySequence (summary_list : list entry).

Definition error_envelope (message : string) : result :=
  Envelope "error" message no_payload.

(** [d[key]] on a row: the value, or [KeyError(key)]. *)
Definition getitem {T} (key : string) (field : option T) : py T :=
  match field with
  | Some v => ret v
  | None => raise (Py.mk_exn Py.KeyError (Py.repr key))
  end.

(** [float(x)] on a float. *)
Definition py_float (x : num) : num := x.

Definition table_name : string := "expenses_test".

Definition add_expense (date : string) (amount : num) (category : string)
           (subcategory : string) (note : string) : py result :=
  try_except
    (_ <- lift (Py.strptime date) ;;
     let data := mk_row None (Some date) (Some (py_float amount)) (Some category)
                        (Some subcategory) (Some note) None in
     result <- execute (Store.insert data (Store.table table_name)) ;;
     match result with
     | first :: _ =>
         expense_id <- getitem "id" (r_id first) ;;
         ret (Envelope "success" "Expense added successfully"
                       (added expense_id first))
     | [] => ret (error_envelope "Failed to add expense")
     end)
    [(Py.ValueError, fun e =>
        ret (error_envelope ("Invalid date format. Use YYYY-MM-DD: " ++ Py.exn_str e)));
     (Py.Exception, fun e =>
        ret (error_envelope ("Database error: " ++ Py.exn_str e)))].

Definition list_expenses (start_date end_date : string) : py result :=
  try_except
    (result <- execute
       (Store.order col_id true
          (Store.order col_date true
             (Store.lte col_date (VStr end_date)
                (Store.gte col_date (VStr start_date)
                   (Store.select
                      [col_id; col_date; col_amount; col_category;
                       col_subcategory; col_note]
                      (Store.table table_name)))))) ;;
     ret (Sequence result))
    [(Py.Exception, fun e =>
        ret (error_envelope ("Error listing expenses: " ++ Py.exn_str e)))].

(** The [summary] dict of [summarize]: keys in insertion order. *)
Definition summary_dict : Type := list (string * entry).

Definition contains (cat : string) (summary : summary_dict) : bool :=
  existsb (fun kv => String.eqb (fst kv) cat) summary.

(** [summary[cat] = v] for a key that is not there yet. *)
Definition setitem_new (cat : string) (v : entry) (summary : summary_dict)
  : summary_dict := (summary ++ [(cat, v)])%list.

(** [summary[cat]["total_amount"] += amount; summary[cat]["count"] += 1]. *)
Fixpoint accumulate (cat : string) (amount : num) (summary : summary_dict)
  : summary_dict :=
  match summary with
  | [] => []
  | (k, v) :: rest =>
      if String.eqb k cat
      then (k, mk_entry (category v) (num_add (total_amount v) amount)
                        (count v + 1)) :: rest
      else (k, v) :: accumulate cat amount rest
  end.

(** The body of the [for expense in result.data] loop. *)
Definition summarize_step (summary : summary_dict) (expense : row)
  : py summary_dict :=
  cat <- getitem "category" (r_category expense) ;;
  amount <- getitem "amount" (r_amount expense) ;;
  let summary :=
    if negb (contains cat summary)
    then setitem_new cat (mk_entry cat num_zero 0) summary
    else summary in
  ret (accumulate cat amount summary).

Fixpoint summarize_loop (data : list row) (summary : summary_dict)
  : py summary_dict :=
  match data with
  | [] => ret summary
  | expense :: rest =>
      summary' <- summarize_step summary expense ;;
      summarize_loop rest summary'
  end.

Definition values (summary : summary_dict) : list entry := map snd summary.

(** [if category:] on an optional string: [None] and [""] are falsy. *)
Definition truthy (category : option string) : bool :=
  match category with
  | None => false
  | Some s => negb (String.eqb s "")
  end.

Definition summarize (start_date end_date : string) (category : option string)
  : py result :=
  try_except
    (let query :=
       Store.lte col_date (VStr end_date)
         (Store.gte col_date (VStr start_date)
            (Store.select [col_category; col_amount] (Store.table table_name))) in
     let query :=
       match category with
       | Some c => if truthy category then Store.eq col_category (VStr c) query
                   else query
       | None => query
       end in
     result <- execute query ;;
     summary <- summarize_loop result [] ;;
     let summary_list :=
       PySorted.sorted num_ltb total_amount true (values summary) in
     ret (SummarySequence summary_list))
    [(Py.Exception, fun e =>
        ret (error_envelope ("Error summarizing expenses_test: " ++ Py.exn_str e)))].

Definition delete_expense (expense_id : Z) : py result :=
  try_except
    (result <- execute
       (Store.eq col_id (VInt expense_id) (Store.delete (Store.table table_name))) ;;
     ret (Envelope "success"
                   ("Expense " ++ Py.str_int expense_id ++ " deleted successfully")
                   no_payload))
    [(Py.Exception, fun e =>
        ret (error_envelope ("Error deleting expense: " ++ Py.exn_str e)))].

(** [if v is not None: body] for an optional argument. *)
Definition if_not_None {T R} (v : option T) (acc : R) (body : T -> py R) : py R :=
  match v with
  | Some x => body x
  | None => ret acc
  end.

Definition update_expense (expense_id : Z) (date : option string)
           (amount : option num) (category subcategory note : option string)
  : py result :=
  try_except
    (let update_data := Store.empty_row in
     update_data <- if_not_None date update_data (fun date =>
                      _ <- lift (Py.strptime date) ;;
                      ret (Store.set_date date update_data)) ;;
     update_data <- if_not_None amount update_data (fun amount =>
                      ret (Store.set_amount (py_float amount) update_data)) ;;
     update_data <- if_not_None category update_data (fun category =>
                      ret (Store.set_category category update_data)) ;;
     update_data <- if_not_None subcategory update_data (fun subcategory =>
                      ret (Store.set_subcategory subcategory update_data)) ;;
     update_data <- if_not_None note update_data (fun note =>
                      ret (Store.set_note note update_data)) ;;
     if Store.is_empty update_data then
       ret (error_envelope "No fields to update")
     else
       result <- execute
         (Store.eq col_id (VInt expense_id)
            (Store.update update_data (Store.table table_name))) ;;
       ret (Envelope "success"
                     ("Expense " ++ Py.str_int expense_id ++ " updated successfully")
                     (updated result)))
    [(Py.ValueError, fun e =>
        ret (error_envelope ("Invalid date format. Use YYYY-MM-DD: " ++ Py.exn_str e)));
     (Py.Exception, fun e =>
        ret (error_envelope ("Error updating expense: " ++ Py.exn_str e)))].

End Service.

(** ** The tool surface

    [@mcp.tool()] registers the five operations; a client invokes one of
    them by name with its arguments. *)

Section Tools.
Context {A : Amount}.

Inductive tool_call :=
| call_add_expense (date : string) (amount : num) (category : string)
                   (subcategory : string) (note : string)
| call_list_expenses (start_date end_date : string)
| call_summarize (start_date end_date : string) (category : option string)
| call_delete_expense (expense_id : Z)
| call_update_expense (expense_id : Z) (date : option string)
                      (amount : option num)
                      (category subcategory note : option string).

Definition invoke (c : tool_call) : py result :=
  match c with
  | call_add_expense date amount category subcategory note =>
      add_expense date amount category subcategory note
  | call_list_expenses start_date end_date => list_expenses start_date end_date
  | call_summarize start_date end_date category =>
      summarize start_date end_date category
  | call_delete_expense expense_id => delete_expense expense_id
  | call_update_expense expense_id date amount category subcategory note =>
      update_expense expense_id date amount category subcategory note
  end.

End Tools.

(** ** Vocabulary of the specification *)

Section Vocabulary.
Context {A : Amount}.

(** An error envelope: [{"status": "error", "message": m}]. *)
Definition is_error_envelope (r : result) : Prop :=
  exists message, r = error_envelope message.

(** A success payload: a dict tagged ["success"], or a bare list. *)
Definition is_success_payload (r : result) : Prop :=
  match r with
  | Envelope status _ _ => status = "success"
  | Sequence _ => True
  | SummarySequence _ => True
  end.

(** The outcome of an operation is a returned, structured result. *)
Definition structured (o : Py.exn + result) : Prop :=
  exists r, o = inr r /\ (is_success_payload r \/ is_error_envelope r).

(** Inclusive date range, in the store's order on text. *)
Definition in_range (start_date end_date d : string) : Prop :=
  String.leb start_date d = true /\ String.leb d end_date = true.

Definition in_rangeb (start_date end_date : string) (e : Store.expense) : bool :=
  String.leb start_date (Store.e_date e) && String.leb (Store.e_date e) end_date.

(** [a] may come before [b] in a listing: later date first, and on the
    same date the larger id first. *)
Definition date_id_desc (a b : Store.expense) : Prop :=
  String.ltb (Store.e_date b) (Store.e_date a) = true
  \/ (Store.e_date a = Store.e_date b /\ Store.e_id b <= Store.e_id a).

(** The six fields a listing shows of a record; no [created_at]. *)
Definition listed (e : Store.expense) : Store.row :=
  Store.mk_row (Some (Store.e_id e)) (Some (Store.e_date e))
               (Some (Store.e_amount e)) (Some (Store.e_category e))
               (Some (Store.e_subcategory e)) (Some (Store.e_note e)) None.

(** The records of a category, their number and the sum of their
    amounts, added from [0] in the order of the list. *)
Definition of_category (c : string) (l : list Store.expense) : list Store.expense :=
  filter (fun e => String.eqb (Store.e_category e) c) l.

Definition sum_amounts (l : list Store.expense) : num :=
  fold_left num_add (map Store.e_amount l) num_zero.

(** Totals in descending order: no entry is followed, anywhere later, by
    one with a strictly larger total. *)
Definition total_desc (a b : entry) : Prop :=
  num_ltb (total_amount a) (total_amount b) = false.

(** The value of a decimal digit. *)
Definition digit_value (c : ascii) : Z := Z.of_nat (nat_of_ascii c) - 48.

(** The year, month and day of a date string in strict form, read as
    numbers, and the calendar order on them. *)
Definition ymd (s : string) : Z * Z * Z :=
  (Py.int_of (substring 0 4 s), Py.int_of (substring 5 2 s),
   Py.int_of (substring 8 2 s)).

Definition ymd_le (a b : Z * Z * Z) : Prop :=
  let '(y1, m1, d1) := a in
  let '(y2, m2, d2) := b in
  y1 < y2 \/ (y1 = y2 /\ (m1 < m2 \/ (m1 = m2 /\ d1 <= d2))).

(** The query [summarize] sends when no category filter applies. *)
Definition range_query (start_date end_date : string) : Store.query :=
  Store.lte Store.col_date (Store.VStr end_date)
    (Store.gte Store.col_date (Store.VStr start_date)
       (Store.select [Store.col_category; Store.col_amount]
                     (Store.table table_name))).

(** The strict form [\d{4}-\d{2}-\d{2}] of a date string. *)
Definition strict_iso (s : string) : bool :=
  match Py.re_match_prefix
          (Py.Cat Py.Digit (Py.Cat Py.Digit (Py.Cat Py.Digit (Py.Cat Py.Digit
          (Py.Cat (Py.ch "-") (Py.Cat Py.Digit (Py.Cat Py.Digit
          (Py.Cat (Py.ch "-") (Py.Cat Py.Digit Py.Digit))))))))) s with
  | Some (_, rest) => String.eqb rest ""
  | None => false
  end.





(** The query and the ordering [list_expenses] asks for. *)
Definition list_order : list (Store.column * bool) :=
  [(Store.col_date, true); (Store.col_id, true)].

Definition list_query (start_date end_date : string) : Store.query :=
  Store.order Store.col_id true
    (Store.order Store.col_date true
       (Store.lte Store.col_date (Store.VStr end_date)
          (Store.gte Store.col_date (Store.VStr start_date)
             (Store.select
                [Store.col_id; Store.col_date; Store.col_amount;
                 Store.col_category; Store.col_subcategory; Store.col_note]
                (Store.table table_name))))).

(** The records a listing shows: those in range, in listing order. *)
Definition listing (d : Store.db) (start_date end_date : string)
  : list Store.expense :=
  Store.order_by list_order
                 (filter (in_rangeb start_date end_date) (Store.rows d)).

(** What one turn of the loop in [summarize] does to the [summary] dict,
    seen from the record behind the row. *)
Definition bump (v : entry) (amount : num) : entry :=
  mk_entry (category v) (num_add (total_amount v) amount) (count v + 1).

Definition ensure (cat : string) (summary : summary_dict) : summary_dict :=
  if negb (contains cat summary)
  then setitem_new cat (mk_entry cat num_zero 0) summary
  else summary.

Definition tally (summary : summary_dict) (e : Store.expense) : summary_dict :=
  accumulate (Store.e_category e) (Store.e_amount e)
             (ensure (Store.e_category e) summary).

(** The [summary] dict describes the records seen so far: one key per
    category among them, and under each key that category's sum and
    number. *)
Definition keys (summary : summary_dict) : list string := map fst summary.

Definition tallied (seen : list Store.expense) (summary : summary_dict) : Prop :=
  NoDup (keys summary)
  /\ (forall k, In k (keys summary)
                <-> exists e, In e seen /\ Store.e_category e = k)
  /\ (forall k v, In (k, v) summary ->
        category v = k
        /\ total_amount v = sum_amounts (of_category k seen)
        /\ count v = Z.of_nat (List.length (of_category k seen))).

(** The stored records in range, in the order the table holds them: the
    order in which an unordered [select] delivers them. *)
Definition in_range_rows (d : Store.db) (start_date end_date : string)
  : list Store.expense :=
  filter (in_rangeb start_date end_date) (Store.rows d).

(** The [update_data] dict that [update_expense] builds from its optional
    arguments, and the query it sends with it. *)
Definition update_fields (date : option string) (amount : option num)
           (category subcategory note : option string) : Store.row :=
  Store.mk_row None date amount category subcategory note None.

Definition update_query (expense_id : Z) (data : Store.row) : Store.query :=
  Store.eq Store.col_id (Store.VInt expense_id)
           (Store.update data (Store.table table_name)).

Definition delete_query (expense_id : Z) : Store.query :=
  Store.eq Store.col_id (Store.VInt expense_id)
           (Store.delete (Store.table table_name)).

Definition insert_query (date : string) (amount : num)
           (category subcategory note : string) : Store.query :=
  Store.insert
    (Store.mk_row None (Some date) (Some amount) (Some category)
                  (Some subcategory) (Some note) None)
    (Store.table table_name).

(** A field after an update: the supplied value, or else the prior one. *)
Definition field_after {T} (supplied : option T) (prior current : T) : Prop :=
  match supplied with
  | Some v => current = v
  | None => current = prior
  end.

(** The record [add_expense] creates in a table in state [d]. *)
Definition new_expense (d : Store.db) (date : string) (amount : num)
           (category subcategory note : string) : Store.expense :=
  Store.mk_expense (Store.next_id d) date amount category subcategory note
                   (Store.now d).

(** Addition that does not depend on the order of the summands, as in
    exact arithmetic. *)
Class AmountSum (A : Amount) : Prop := {
  num_add_comm : forall a b : num, num_add a b = num_add b a;
  num_add_assoc : forall a b c : num,
      num_add a (num_add b c) = num_add (num_add a b) c
}.

End Vocabulary.

(** The table after [add_expense]. *)
Definition after_add {A : Amount} (d : Store.db) (e : Store.expense) : Store.db :=
  Store.mk_db (Store.rows d ++ [e]) (Store.next_id d + 1) (Store.now d).

(** A small ledger with float amounts, used in the examples. *)
Definition sample_ledger : Store.db (A := float_amount) :=
  Store.mk_db (A := float_amount)
    [Store.mk_expense (A := float_amount) 1 "2024-01-05" 12.5%float "Food & Dining" "" "lunch"
                      "2024-01-05T12:30:00+00:00";
     Store.mk_expense (A := float_amount) 2 "2024-01-07" 30%float "Transportation" "" "train"
                      "2024-01-07T08:00:00+00:00";
     Store.mk_expense (A := float_amount) 3 "2024-01-07" 4.25%float "Food & Dining" "snack" ""
                      "2024-01-07T16:45:00+00:00"]
    4 "2024-01-08T09:00:00+00:00".


(** ** More vocabulary: what a call sends and how it reports failure *)

Section CallVocabulary.
Context {A : Amount}.

(** The query [summarize] sends: the range query, narrowed to one
    category when [category] is truthy. *)
Definition summarize_query (start_date end_date : string)
           (category : option string) : Store.query :=
  match category with
  | Some c =>
      if truthy category
      then Store.eq Store.col_category (Store.VStr c)
                    (range_query start_date end_date)
      else range_query start_date end_date
  | None => range_query start_date end_date
  end.

Definition parses (date : string) : bool :=
  match Py.strptime date with inr _ => true | inl _ => false end.

(** The query a call sends once its arguments pass the local checks;
    [None] when the call is refused before the store is reached. *)
Definition query_of (c : tool_call) : option Store.query :=
  match c with
  | call_add_expense date amount category subcategory note =>
      if parses date
      then Some (insert_query date amount category subcategory note)
      else None
  | call_list_expenses start_date end_date =>
      Some (list_query start_date end_date)
  | call_summarize start_date end_date category =>
      Some (summarize_query start_date end_date category)
  | call_delete_expense expense_id => Some (delete_query expense_id)
  | call_update_expense expense_id date amount category subcategory note =>
      if match date with Some s => parses s | None => true end
         && negb (Store.is_empty
                    (update_fields date amount category subcategory note))
      then Some (update_query expense_id
                   (update_fields date amount category subcategory note))
      else None
  end.

(** The text an operation puts before [str(e)] when it catches [e]. *)
Definition failure_prefix (c : tool_call) (e : Py.exn) : string :=
  match c with
  | call_add_expense _ _ _ _ _ =>
      if Py.isinstance e Py.ValueError
      then "Invalid date format. Use YYYY-MM-DD: " else "Database error: "
  | call_list_expenses _ _ => "Error listing expenses: "
  | call_summarize _ _ _ => "Error summarizing expenses_test: "
  | call_delete_expense _ => "Error deleting expense: "
  | call_update_expense _ _ _ _ _ _ =>
      if Py.isinstance e Py.ValueError
      then "Invalid date format. Use YYYY-MM-DD: " else "Error updating expense: "
  end.

(** A row has the two keys the loop of [summarize] reads. *)
Definition has_keys (r : Store.row) : bool :=
  match Store.r_category r, Store.r_amount r with
  | Some _, Some _ => true
  | _, _ => false
  end.

(** The key of a row that the loop of [summarize] misses first. *)
Definition missing_key (r : Store.row) : string :=
  match Store.r_category r with
  | None => "category"
  | Some _ => "amount"
  end.

(** The sum of the counts of a summary. *)
Definition total_count (l : list entry) : Z :=
  fold_right (fun en n => count en + n) 0 l.

(** Two totals neither of which is less than the other. *)
Definition tied (t : num) (en : entry) : bool :=
  negb (num_ltb t (total_amount en)) && negb (num_ltb (total_amount en) t).

(** The table after [delete_expense] and after [update_expense]. *)
Definition after_delete (d : Store.db) (expense_id : Z) : Store.db :=
  Store.mk_db
    (filter (fun e => negb (Store.e_id e =? expense_id)) (Store.rows d))
    (Store.next_id d) (Store.now d).

Definition after_update (d : Store.db) (expense_id : Z) (data : Store.row)
  : Store.db :=
  Store.mk_db
    (map (fun e => if Store.e_id e =? expense_id then Store.patch data e else e)
         (Store.rows d))
    (Store.next_id d) (Store.now d).

(** A year, month and day that denote a day of the calendar. *)
Definition real_date (ymd : Z * Z * Z) : Prop :=
  let '(y, m, d) := ymd in
  1 <= y <= 9999 /\ 1 <= m <= 12 /\ 1 <= d <= Py.days_in_month y m.

(** The stored records [summarize] aggregates: those in range, of the one
    category when the filter applies, in the order the table holds them. *)
Definition selected (d : Store.db) (start_date end_date : string)
           (category : option string) : list Store.expense :=
  match category with
  | Some c =>
      if truthy category
      then of_category c (in_range_rows d start_date end_date)
      else in_range_rows d start_date end_date
  | None => in_range_rows d start_date end_date
  end.

(** The distinct strings of a list, each at its first occurrence. *)
Definition first_seen (l : list string) : list string :=
  fold_left (fun acc c => if existsb (String.eqb c) acc then acc
                          else (acc ++ [c])%list) l [].

End CallVocabulary.



(** Two stores used in examples: one whose client raises [e] on every
    query, one that answers every query with the rows [data]. *)
Definition failing_store {A : Amount} (e : Py.exn)
  : Store.query -> unit -> Store.reply * unit :=
  fun _ s => (inl e, s).

Definition answering_store {A : Amount} (data : list Store.row)
  : Store.query -> unit -> Store.reply * unit :=
  fun _ s => (inr data, s).

(** A ledger in which two categories have the same total. *)
Definition tied_ledger : Store.db (A := float_amount) :=
  Store.mk_db (A := float_amount)
    [Store.mk_expense (A := float_amount) 1 "2024-03-01" 10%float "Food & Dining"
                      "" "" "2024-03-01T10:00:00+00:00";
     Store.mk_expense (A := float_amount) 2 "2024-03-02" 10%float "Travel"
                      "" "" "2024-03-02T10:00:00+00:00";
     Store.mk_expense (A := float_amount) 3 "2024-03-03" 5%float "Food & Dining"
                      "" "" "2024-03-03T10:00:00+00:00";
     Store.mk_expense (A := float_amount) 4 "2024-03-04" 15%float "Housing"
                      "" "" "2024-03-04T10:00:00+00:00"]
    5 "2024-03-05T09:00:00+00:00".


(** * Properties *)

(** ** Programs *)

Section ProgramFacts.
Context {A : Amount} {S : Type} (handle : Store.query -> S -> Store.reply * S).

Lemma run_prog_bind {R T} (p : prog R) (f : R -> prog T) (s : S) :
  run handle (prog_bind p f) s
  = let (o, s') := run handle p s in run handle (f o) s'.
Proof.
  revert s. induction p as [r | q k IH]; intro s; simpl.
  - reflexivity.
  - destruct (handle q s) as [rep s']. apply IH.
Qed.

Lemma calls_prog_bind {R T} (p : prog R) (f : R -> prog T) (s : S) :
  calls handle (prog_bind p f) s
  = (calls handle p s
       ++ let (o, s') := run handle p s in calls handle (f o) s')%list.
Proof.
  revert s. induction p as [r | q k IH]; intro s; simpl.
  - reflexivity.
  - destruct (handle q s) as [rep s']. simpl. f_equal. apply IH.
Qed.

Lemma run_try_except {R} (body : py R) clauses (s : S) :
  run handle (try_except body clauses) s
  = match run handle body s with
    | (inl e, s') => run handle (dispatch clauses e) s'
    | (inr r, s') => (inr r, s')
    end.
Proof.
  unfold try_except. rewrite run_prog_bind.
  destruct (run handle body s) as [[e | r] s']; reflexivity.
Qed.

Lemma run_bind {R T} (p : py R) (f : R -> py T) (s : S) :
  run handle (bind p f) s
  = match run handle p s with
    | (inl e, s') => (inl e, s')
    | (inr r, s') => run handle (f r) s'
    end.
Proof.
  unfold bind. rewrite run_prog_bind.
  destruct (run handle p s) as [[e | r] s']; reflexivity.
Qed.

Lemma run_execute (q : Store.query) (s : S) :
  run handle (execute q) s = handle q s.
Proof. simpl. destruct (handle q s); reflexivity. Qed.

(** A [try] block that makes one store call and then only computes. *)
Lemma calls_execute_once {R T} (q : Store.query) (f : list Store.row -> py R)
      (g : Py.exn + R -> prog T) (s : S) :
  (forall data, exists o, f data = Ret o) ->
  (forall o, exists r, g o = Ret r) ->
  calls handle (prog_bind (bind (execute q) f) g) s = [q].
Proof.
  intros Hf Hg. simpl. destruct (handle q s) as [[e | data] s']; f_equal; simpl.
  - destruct (Hg (inl e)) as [r ->]. reflexivity.
  - destruct (Hf data) as [o ->]. simpl. destruct (Hg o) as [r ->]. reflexivity.
Qed.

End ProgramFacts.

(** ** C1: no operation raises *)

Section NeverRaises.
Context {A : Amount}.

Lemma summarize_loop_pure (data : list Store.row) (summary : summary_dict) :
  exists o, summarize_loop data summary = Ret o.
Proof.
  revert summary. induction data as [| expense rest IH]; intro summary.
  - eexists. reflexivity.
  - simpl. unfold summarize_step, getitem.
    destruct (Store.r_category expense) as [cat |];
      [destruct (Store.r_amount expense) as [amount |] |]; simpl.
    + apply IH.
    + eexists. reflexivity.
    + eexists. reflexivity.
Qed.

Lemma structured_success (r : result) :
  is_success_payload r -> structured (inr r).
Proof. intro H. exists r. split; [reflexivity | left; exact H]. Qed.

Lemma structured_error (message : string) :
  structured (inr (error_envelope message)).
Proof.
  exists (error_envelope message).
  split; [reflexivity | right; exists message; reflexivity].
Qed.

(** Every exception is an instance of [Exception], so a final
    [except Exception] clause lets nothing through. *)
Lemma isinstance_Exception (e : Py.exn) : Py.isinstance e Py.Exception = true.
Proof. destruct e as [[] msg]; reflexivity. Qed.

Ltac finish :=
  simpl;
  first [ apply structured_error
        | apply structured_success; simpl; exact I
        | apply structured_success; simpl; reflexivity ].

Ltac by_class e :=
  let c := fresh "c" in let m := fresh "m" in
  destruct e as [c m]; destruct c; finish.

(** C1.  Whatever tool is invoked, with whatever arguments, and however
    the store answers each query (rows of any shape, or an exception of
    any class), the operation returns a value: a success payload or an
    error envelope.  Its outcome is never a raised exception. *)
Theorem operations_never_raise :
  forall (S : Type) (handle : Store.query -> S -> Store.reply * S)
         (s : S) (c : tool_call),
    structured (fst (run handle (invoke c) s)).
Proof.
  intros S handle s c.
  destruct c as [date amount category subcategory note
                | start_date end_date
                | start_date end_date category
                | expense_id
                | expense_id date amount category subcategory note];
    simpl invoke.
  - (* add_expense *)
    unfold add_expense. rewrite run_try_except, run_bind. unfold lift.
    destruct (Py.strptime date) as [e | ymd]; simpl run at 1; cbv beta iota.
    + by_class e.
    + rewrite run_bind, run_execute.
      destruct (handle _ s) as [[e | data] s'].
      * by_class e.
      * destruct data as [| first rest]; [finish |].
        unfold getitem. destruct (Store.r_id first); finish.
  - (* list_expenses *)
    unfold list_expenses. rewrite run_try_except, run_bind, run_execute.
    destruct (handle _ s) as [[e | data] s']; [by_class e | finish].
  - (* summarize *)
    unfold summarize. rewrite run_try_except, run_bind, run_execute.
    destruct (handle _ s) as [[e | data] s']; [by_class e |].
    rewrite run_bind.
    destruct (summarize_loop_pure data []) as [[e | summary] ->]; simpl run.
    + by_class e.
    + finish.
  - (* delete_expense *)
    unfold delete_expense. rewrite run_try_except, run_bind, run_execute.
    destruct (handle _ s) as [[e | data] s']; [by_class e | finish].
  - (* update_expense *)
    unfold update_expense. rewrite run_try_except.
    destruct date as [date |]; simpl if_not_None.
    + unfold lift. destruct (Py.strptime date) as [e | ymd].
      * simpl. by_class e.
      * destruct amount, category, subcategory, note; simpl;
          destruct (handle _ s) as [[e | data] s'];
          solve [by_class e | finish].
    + destruct amount, category, subcategory, note; simpl;
        try (destruct (handle _ s) as [[e | data] s']);
        solve [by_class e | finish].
Qed.

End NeverRaises.

(** ** C4, C6: validation errors are local *)

Section Validation.
Context {A : Amount}.

Lemma strptime_raises_ValueError (s : string) (e : Py.exn) :
  Py.strptime s = inl e -> Py.exn_cls e = Py.ValueError.
Proof.
  unfold Py.strptime.
  destruct (Py.re_match_prefix Py.format_regex s) as [[caps rest] |].
  - destruct (negb (rest =? ""))%string.
    + intro H. injection H as <-. reflexivity.
    + destruct (_ <? 1).
      * intro H. injection H as <-. reflexivity.
      * destruct (_ <? _); intro H; [injection H as <- | discriminate].
        reflexivity.
  - intro H. injection H as <-. reflexivity.
Qed.

(** C4.  When [strptime] rejects the date, [add_expense] is the finished
    program that returns the error envelope naming the expected format
    [YYYY-MM-DD]: it sends no query, so against any store no call is made
    and the store's state is what it was. *)
Theorem add_expense_rejects_unparsable_date
        (date : string) (amount : num) (category subcategory note : string)
        (e : Py.exn) (Hparse : Py.strptime date = inl e) :
  add_expense date amount category subcategory note
  = Ret (inr (error_envelope
                ("Invalid date format. Use YYYY-MM-DD: " ++ Py.exn_str e)))
  /\ forall (S : Type) (handle : Store.query -> S -> Store.reply * S) (s : S),
      calls handle (add_expense date amount category subcategory note) s = []
      /\ snd (run handle (add_expense date amount category subcategory note) s) = s.
Proof.
  assert (Hprog : add_expense date amount category subcategory note
                  = Ret (inr (error_envelope
                                ("Invalid date format. Use YYYY-MM-DD: "
                                   ++ Py.exn_str e)))).
  { pose proof (strptime_raises_ValueError _ _ Hparse) as Hcls.
    unfold add_expense, try_except, lift. rewrite Hparse. simpl.
    unfold Py.isinstance. rewrite Hcls. reflexivity. }
  split; [exact Hprog |].
  intros S handle s. rewrite Hprog. split; reflexivity.
Qed.

(** C6.  With every optional argument omitted, [update_expense] is the
    finished program that returns the "No fields to update" envelope,
    whatever the id: no query is sent and the store's state is
    unchanged. *)
Theorem update_expense_without_fields (expense_id : Z) :
  update_expense expense_id None None None None None
  = Ret (inr (error_envelope "No fields to update"))
  /\ forall (S : Type) (handle : Store.query -> S -> Store.reply * S) (s : S),
      calls handle (update_expense expense_id None None None None None) s = []
      /\ run handle (update_expense expense_id None None None None None) s
         = (inr (error_envelope "No fields to update"), s).
Proof.
  split; [reflexivity |].
  intros S handle s. split; reflexivity.
Qed.

End Validation.

(** The dates the specification gives as examples of unparsable input. *)
Lemma add_expense_rejects_unparsable_date_witness :
  add_expense (A := float_amount) "2024/01/01" 12.5%float "Food & Dining" "" "lunch"
  = Ret (inr (error_envelope
                ("Invalid date format. Use YYYY-MM-DD: "
                   ++ "time data '2024/01/01' does not match format '%Y-%m-%d'")))
  /\ forall (S : Type) (handle : Store.query -> S -> Store.reply * S) (s : S),
      calls handle
            (add_expense (A := float_amount) "2024/01/01" 12.5%float
                         "Food & Dining" "" "lunch") s = []
      /\ snd (run handle
                  (add_expense (A := float_amount) "2024/01/01" 12.5%float
                               "Food & Dining" "" "lunch") s) = s.
Proof.
  apply (add_expense_rejects_unparsable_date
           (A := float_amount) "2024/01/01" 12.5%float "Food & Dining" "" "lunch"
           (Py.mk_exn Py.ValueError
                      "time data '2024/01/01' does not match format '%Y-%m-%d'")).
  reflexivity.
Defined.

Example add_expense_not_a_date :
  add_expense (A := Z_amount) "not-a-date" 3 "Other" "" ""
  = Ret (inr (error_envelope
                "Invalid date format. Use YYYY-MM-DD: time data 'not-a-date' does not match format '%Y-%m-%d'")).
Proof. reflexivity. Qed.

(** ** C9: an empty category is no category *)

Section EmptyCategory.
Context {A : Amount}.

(** C9.  For every date range, [summarize] with [category = ""] is the
    same program as [summarize] with the category omitted: [if category:]
    is false for both.  The one query it sends carries the two date
    criteria and no criterion on [category], so the rows of every category
    in the range are aggregated. *)
Theorem summarize_empty_category_is_no_filter (start_date end_date : string) :
  summarize start_date end_date (Some "") = summarize start_date end_date None
  /\ forall (S : Type) (handle : Store.query -> S -> Store.reply * S) (s : S),
      calls handle (summarize start_date end_date (Some "")) s
      = [range_query start_date end_date]
      /\ Store.q_filters (range_query start_date end_date)
         = [Store.f_gte Store.col_date (Store.VStr start_date);
            Store.f_lte Store.col_date (Store.VStr end_date)].
Proof.
  split; [reflexivity |].
  intros S handle s. split; [| reflexivity].
  unfold summarize, try_except. simpl.
  fold (range_query start_date end_date).
  destruct (handle (range_query start_date end_date) s) as [[e | data] s'].
  - reflexivity.
  - simpl.
    destruct (summarize_loop_pure data []) as [[e | summary] ->]; reflexivity.
Qed.

End EmptyCategory.

(** ** The order on text *)

Section TextOrder.

Lemma ascii_compare_refl (c : ascii) : Ascii.compare c c = Eq.
Proof. unfold Ascii.compare. apply N.compare_refl. Qed.

Lemma ascii_compare_lt_trans (a b c : ascii) :
  Ascii.compare a b = Lt -> Ascii.compare b c = Lt -> Ascii.compare a c = Lt.
Proof.
  unfold Ascii.compare. rewrite !N.compare_lt_iff. apply N.lt_trans.
Qed.

Lemma string_compare_refl (s : string) : String.compare s s = Eq.
Proof.
  induction s as [| c s IH]; simpl; [reflexivity |].
  rewrite ascii_compare_refl. exact IH.
Qed.

Lemma string_compare_lt_trans (a b c : string) :
  String.compare a b = Lt -> String.compare b c = Lt -> String.compare a c = Lt.
Proof.
  revert b c. induction a as [| x a IH]; intros [| y b] [| z c]; simpl;
    try discriminate; try reflexivity.
  destruct (Ascii.compare x y) eqn:Hxy; try discriminate;
    destruct (Ascii.compare y z) eqn:Hyz; try discriminate; intros Hab Hbc.
  - apply Ascii.compare_eq_iff in Hxy, Hyz. subst.
    rewrite ascii_compare_refl. eapply IH; eassumption.
  - apply Ascii.compare_eq_iff in Hxy. subst. rewrite Hyz. reflexivity.
  - apply Ascii.compare_eq_iff in Hyz. subst. rewrite Hxy. reflexivity.
  - rewrite (ascii_compare_lt_trans _ _ _ Hxy Hyz). reflexivity.
Qed.

Lemma string_compare_gt_lt (a b : string) :
  String.compare a b = Gt <-> String.compare b a = Lt.
Proof.
  rewrite (String.compare_antisym a b).
  destruct (String.compare b a); simpl; split; congruence.
Qed.

Lemma string_ltb_compare (a b : string) :
  String.ltb a b = true <-> String.compare a b = Lt.
Proof.
  unfold String.ltb. destruct (String.compare a b); split; congruence.
Qed.

Lemma string_leb_compare (a b : string) :
  String.leb a b = true <-> String.compare a b <> Gt.
Proof.
  unfold String.leb. destruct (String.compare a b); split; congruence.
Qed.

Lemma string_leb_refl (a : string) : String.leb a a = true.
Proof. apply string_leb_compare. rewrite string_compare_refl. discriminate. Qed.

End TextOrder.

(** ** ORDER BY on the reference table *)

Section OrderBy.
Context {A : Amount}.
Variable os : list (Store.column * bool).

Let cmp := Store.order_compare os.
Let le (a b : Store.expense) : Prop := cmp a b <> Gt.

Lemma insert_sorted_perm (x : Store.expense) (l : list Store.expense) :
  Permutation (x :: l) (Store.insert_sorted os x l).
Proof.
  induction l as [| y l IH]; simpl.
  - apply Permutation_refl.
  - destruct (Store.order_compare os x y);
      try apply Permutation_refl.
    eapply perm_trans; [apply perm_swap |]. apply perm_skip. exact IH.
Qed.

Lemma order_by_perm (l : list Store.expense) :
  Permutation l (Store.order_by os l).
Proof.
  induction l as [| x l IH]; simpl.
  - apply perm_nil.
  - eapply perm_trans; [apply perm_skip; exact IH |].
    apply insert_sorted_perm.
Qed.

Lemma order_by_In (l : list Store.expense) (e : Store.expense) :
  In e (Store.order_by os l) <-> In e l.
Proof.
  split; apply Permutation_in;
    [apply Permutation_sym |]; apply order_by_perm.
Qed.

Hypothesis cmp_gt_flip : forall a b, cmp a b = Gt -> le b a.
Hypothesis le_trans : forall a b c, le a b -> le b c -> le a c.

Lemma insert_sorted_sorted (x : Store.expense) (l : list Store.expense) :
  StronglySorted le l -> StronglySorted le (Store.insert_sorted os x l).
Proof.
  induction l as [| y l IH]; intro Hl; simpl.
  - constructor; constructor.
  - apply StronglySorted_inv in Hl. destruct Hl as [Hl Hy].
    destruct (Store.order_compare os x y) eqn:Hxy.
    + constructor; [constructor; assumption |].
      assert (Hle : le x y) by (unfold le, cmp; rewrite Hxy; discriminate).
      constructor; [exact Hle |].
      eapply Forall_impl; [| exact Hy]. intros z Hz. eapply le_trans; eassumption.
    + constructor; [constructor; assumption |].
      assert (Hle : le x y) by (unfold le, cmp; rewrite Hxy; discriminate).
      constructor; [exact Hle |].
      eapply Forall_impl; [| exact Hy]. intros z Hz. eapply le_trans; eassumption.
    + constructor; [apply IH; exact Hl |].
      apply (Permutation_Forall (insert_sorted_perm x l)).
      constructor; [apply cmp_gt_flip; exact Hxy | exact Hy].
Qed.

Lemma order_by_sorted (l : list Store.expense) :
  StronglySorted le (Store.order_by os l).
Proof.
  induction l as [| x l IH]; simpl.
  - constructor.
  - apply insert_sorted_sorted. exact IH.
Qed.

End OrderBy.

(** ** Strict dates: text order is calendar order *)

Section StrictDates.

Lemma is_digit_bounds (c : ascii) :
  Py.is_digit c = true -> 0 <= digit_value c <= 9.
Proof.
  unfold Py.is_digit, digit_value. rewrite andb_true_iff.
  intros [H1 H2]. apply Nat.leb_le in H1, H2. lia.
Qed.

Lemma ascii_compare_digits (c c' : ascii) :
  Ascii.compare c c' = Z.compare (digit_value c) (digit_value c').
Proof.
  unfold Ascii.compare, digit_value, nat_of_ascii. rewrite !N_nat_Z.
  rewrite <- (N2Z.inj_compare (N_of_ascii c) (N_of_ascii c')).
  destruct (Z.compare_spec (Z.of_N (N_of_ascii c)) (Z.of_N (N_of_ascii c')));
    symmetry;
    [apply Z.compare_eq_iff | apply Z.compare_lt_iff | apply Z.compare_gt_iff];
    lia.
Qed.

Ltac take_digit H s c :=
  destruct s as [| c s]; cbn [Py.one_char] in H; [discriminate H |];
  let D := fresh "D" in
  destruct (Py.is_digit c) eqn:D; [| discriminate H].

Ltac take_dash H s c :=
  destruct s as [| c s]; cbn [Py.one_char] in H; [discriminate H |];
  let D := fresh "E" in
  destruct (Ascii.eqb "-" c) eqn:D;
  [apply Ascii.eqb_eq in D; subst c | discriminate H].

Lemma strict_iso_shape (s : string) :
  strict_iso s = true ->
  exists y1 y2 y3 y4 m1 m2 d1 d2,
    s = String y1 (String y2 (String y3 (String y4 (String "-"
          (String m1 (String m2 (String "-" (String d1 (String d2 "")))))))))
    /\ Forall (fun c => Py.is_digit c = true) [y1; y2; y3; y4; m1; m2; d1; d2].
Proof.
  unfold strict_iso, Py.re_match_prefix. intro H.
  cbn [Py.re_match Py.ch] in H.
  take_digit H s y1. take_digit H s y2. take_digit H s y3. take_digit H s y4.
  take_dash H s h1.
  take_digit H s m1. take_digit H s m2.
  take_dash H s h2.
  take_digit H s d1. take_digit H s d2.
  apply String.eqb_eq in H. subst s.
  exists y1, y2, y3, y4, m1, m2, d1, d2.
  split; [reflexivity | repeat constructor; assumption].
Qed.

Ltac compare_digit a b :=
  destruct (Z.compare_spec a b);
  [subst a
  | unfold ymd_le; split; intro; [lia | reflexivity]
  | unfold ymd_le; split; intro; [discriminate | lia]].

(** On dates in strict form the order on text is the order of the
    calendar, so a range of such dates contains the dates one expects. *)
Lemma strict_iso_order (a b : string) :
  strict_iso a = true -> strict_iso b = true ->
  (String.leb a b = true <-> ymd_le (ymd a) (ymd b)).
Proof.
  intros Ha Hb.
  destruct (strict_iso_shape a Ha)
    as (a1 & a2 & a3 & a4 & a5 & a6 & a7 & a8 & -> & Fa).
  destruct (strict_iso_shape b Hb)
    as (b1 & b2 & b3 & b4 & b5 & b6 & b7 & b8 & -> & Fb).
  repeat match goal with
         | H : Forall _ (_ :: _) |- _ =>
             apply Forall_cons_iff in H; destruct H
         end.
  unfold ymd, Py.int_of. cbn [substring Py.int_digits].
  repeat match goal with
         | H : Py.is_digit ?c = true |- _ =>
             rewrite H; apply is_digit_bounds in H
         end.
  fold (digit_value a1) (digit_value a2) (digit_value a3) (digit_value a4)
       (digit_value a5) (digit_value a6) (digit_value a7) (digit_value a8)
       (digit_value b1) (digit_value b2) (digit_value b3) (digit_value b4)
       (digit_value b5) (digit_value b6) (digit_value b7) (digit_value b8).
  unfold String.leb. cbn [String.compare].
  rewrite !ascii_compare_digits, !Z.compare_refl.
  clear Ha Hb.
  generalize dependent (digit_value a1). intro x1.
  generalize dependent (digit_value a2). intro x2.
  generalize dependent (digit_value a3). intro x3.
  generalize dependent (digit_value a4). intro x4.
  generalize dependent (digit_value a5). intro x5.
  generalize dependent (digit_value a6). intro x6.
  generalize dependent (digit_value a7). intro x7.
  generalize dependent (digit_value a8). intro x8.
  generalize dependent (digit_value b1). intro z1.
  generalize dependent (digit_value b2). intro z2.
  generalize dependent (digit_value b3). intro z3.
  generalize dependent (digit_value b4). intro z4.
  generalize dependent (digit_value b5). intro z5.
  generalize dependent (digit_value b6). intro z6.
  generalize dependent (digit_value b7). intro z7.
  generalize dependent (digit_value b8). intro z8.
  intros.
  compare_digit x1 z1. compare_digit x2 z2. compare_digit x3 z3.
  compare_digit x4 z4. compare_digit x5 z5. compare_digit x6 z6.
  compare_digit x7 z7. compare_digit x8 z8.
  unfold ymd_le. split; intro; [lia | reflexivity].
Qed.

(** A range between two dates in strict form contains a date in strict
    form exactly when it does so on the calendar. *)
Lemma in_range_strict (start_date end_date d : string) :
  strict_iso start_date = true -> strict_iso end_date = true ->
  strict_iso d = true ->
  (in_range start_date end_date d
   <-> ymd_le (ymd start_date) (ymd d) /\ ymd_le (ymd d) (ymd end_date)).
Proof.
  intros Hs He Hd. unfold in_range.
  rewrite (strict_iso_order start_date d Hs Hd), (strict_iso_order d end_date Hd He).
  reflexivity.
Qed.



End StrictDates.

(** ** C2: listing *)

Section Listing.
Context {A : Amount}.

Lemma date_id_desc_compare (a b : Store.expense) :
  date_id_desc a b <-> Store.order_compare list_order a b <> Gt.
Proof.
  unfold date_id_desc. simpl.
  rewrite string_ltb_compare, <- string_compare_gt_lt.
  destruct (String.compare (Store.e_date a) (Store.e_date b)) eqn:Hd; simpl.
  - apply String.compare_eq_iff in Hd.
    destruct (Z.compare_spec (Store.e_id a) (Store.e_id b)) as [Hi | Hi | Hi];
      simpl; split; intro H.
    + discriminate.
    + right. split; [exact Hd | lia].
    + destruct H as [H | [_ H]]; [discriminate | lia].
    + exfalso. apply H. reflexivity.
    + discriminate.
    + right. split; [exact Hd | lia].
  - split; intro H.
    + destruct H as [H | [H _]]; [discriminate |].
      rewrite H, string_compare_refl in Hd. discriminate.
    + exfalso. apply H. reflexivity.
  - split; intro H; [discriminate | left; reflexivity].
Qed.

Lemma date_id_desc_trans (a b c : Store.expense) :
  date_id_desc a b -> date_id_desc b c -> date_id_desc a c.
Proof.
  unfold date_id_desc. rewrite !string_ltb_compare.
  intros [Hab | [Hab Iab]] [Hbc | [Hbc Ibc]].
  - left. eapply string_compare_lt_trans; eassumption.
  - left. rewrite <- Hbc. exact Hab.
  - left. rewrite Hab. exact Hbc.
  - right. split; [congruence | lia].
Qed.

Lemma date_id_desc_flip (a b : Store.expense) :
  Store.order_compare list_order a b = Gt -> date_id_desc b a.
Proof.
  unfold date_id_desc. simpl. rewrite string_ltb_compare.
  destruct (String.compare (Store.e_date a) (Store.e_date b)) eqn:Hd; simpl.
  - apply String.compare_eq_iff in Hd.
    destruct (Z.compare_spec (Store.e_id a) (Store.e_id b)) as [Hi | Hi | Hi];
      simpl; try discriminate.
    intros _. right. split; [symmetry; exact Hd | lia].
  - intros _. left. reflexivity.
  - discriminate.
Qed.



Lemma matches_range (start_date end_date : string) (e : Store.expense) :
  Store.matches [Store.f_gte Store.col_date (Store.VStr start_date);
                 Store.f_lte Store.col_date (Store.VStr end_date)] e
  = in_rangeb start_date end_date e.
Proof.
  unfold Store.matches, in_rangeb, Store.holds, String.leb. simpl.
  rewrite (String.compare_antisym (Store.e_date e) start_date).
  destruct (String.compare start_date (Store.e_date e));
    destruct (String.compare (Store.e_date e) end_date); reflexivity.
Qed.

Lemma in_rangeb_spec (start_date end_date : string) (e : Store.expense) :
  in_rangeb start_date end_date e = true
  <-> in_range start_date end_date (Store.e_date e).
Proof. unfold in_rangeb, in_range. apply andb_true_iff. Qed.

Lemma execute_list_query (d : Store.db) (start_date end_date : string) :
  Store.execute (list_query start_date end_date) d
  = (inr (map listed (listing d start_date end_date)), d).
Proof.
  unfold listing.
  rewrite <- (filter_ext _ _ (matches_range start_date end_date)).
  reflexivity.
Qed.

Lemma run_list_expenses (d : Store.db) (start_date end_date : string) :
  run Store.execute (list_expenses start_date end_date) d
  = (inr (Sequence (map listed (listing d start_date end_date))), d).
Proof.
  unfold list_expenses. rewrite run_try_except, run_bind, run_execute.
  fold (list_query start_date end_date). rewrite execute_list_query.
  reflexivity.
Qed.

Lemma listing_In (d : Store.db) (start_date end_date : string) (e : Store.expense) :
  In e (listing d start_date end_date)
  <-> In e (Store.rows d) /\ in_range start_date end_date (Store.e_date e).
Proof.
  unfold listing. rewrite order_by_In, filter_In, in_rangeb_spec. reflexivity.
Qed.




End Listing.

(** ** The aggregation loop of [summarize] *)

Section Aggregation.
Context {A : Amount}.

Lemma keys_accumulate (cat : string) (amount : num) (summary : summary_dict) :
  keys (accumulate cat amount summary) = keys summary.
Proof.
  induction summary as [| [k v] rest IH]; simpl; [reflexivity |].
  destruct (String.eqb k cat); simpl; [reflexivity |].
  f_equal. exact IH.
Qed.

Lemma In_keys (k : string) (v : entry) (summary : summary_dict) :
  In (k, v) summary -> In k (keys summary).
Proof. intro H. apply (in_map fst) in H. exact H. Qed.

Lemma In_accumulate (cat : string) (amount : num) (summary : summary_dict)
      (k : string) (v : entry) :
  NoDup (keys summary) ->
  In (k, v) (accumulate cat amount summary) ->
  (k <> cat /\ In (k, v) summary)
  \/ (k = cat /\ exists v0, In (cat, v0) summary /\ v = bump v0 amount).
Proof.
  induction summary as [| [k0 v0] rest IH]; simpl; intros Hnd Hin.
  - contradiction.
  - apply NoDup_cons_iff in Hnd. destruct Hnd as [Hk0 Hnd].
    destruct (String.eqb_spec k0 cat) as [-> | Hne].
    + destruct Hin as [Heq | Hin].
      * injection Heq as <- <-. right. split; [reflexivity |].
        exists v0. split; [left; reflexivity | reflexivity].
      * left. split; [| right; exact Hin].
        intros ->. apply Hk0. eapply In_keys. exact Hin.
    + destruct Hin as [Heq | Hin].
      * injection Heq as <- <-. left. split; [exact Hne | left; reflexivity].
      * destruct (IH Hnd Hin) as [[Hk H] | [Hk [w [Hw Hv]]]].
        -- left. split; [exact Hk | right; exact H].
        -- right. split; [exact Hk |]. exists w. split; [right; exact Hw | exact Hv].
Qed.

Lemma contains_keys (cat : string) (summary : summary_dict) :
  contains cat summary = true <-> In cat (keys summary).
Proof.
  unfold contains, keys. rewrite existsb_exists, in_map_iff.
  split; intros [kv [H1 H2]]; exists kv.
  - apply String.eqb_eq in H2. split; assumption.
  - subst cat. split; [exact H2 | apply String.eqb_refl].
Qed.

Lemma of_category_snoc (k : string) (seen : list Store.expense) (e : Store.expense) :
  of_category k (seen ++ [e])
  = (of_category k seen
       ++ if String.eqb (Store.e_category e) k then [e] else [])%list.
Proof.
  unfold of_category. rewrite filter_app. simpl.
  destruct (String.eqb (Store.e_category e) k); reflexivity.
Qed.

Lemma sum_amounts_snoc (l : list Store.expense) (e : Store.expense) :
  sum_amounts (l ++ [e]) = num_add (sum_amounts l) (Store.e_amount e).
Proof. unfold sum_amounts. rewrite map_app, fold_left_app. reflexivity. Qed.

Lemma of_category_none (k : string) (seen : list Store.expense) :
  (forall e, In e seen -> Store.e_category e <> k) -> of_category k seen = [].
Proof.
  induction seen as [| e seen IH]; intro H; simpl; [reflexivity |].
  destruct (String.eqb_spec (Store.e_category e) k) as [Heq | Hne].
  - exfalso. apply (H e); [left; reflexivity | exact Heq].
  - apply IH. intros e' He'. apply H. right. exact He'.
Qed.

(** After [if cat not in summary: summary[cat] = {...}] the dict still
    describes the records seen, and has the key. *)
Lemma ensure_spec (seen : list Store.expense) (summary : summary_dict) (cat : string) :
  tallied seen summary ->
  NoDup (keys (ensure cat summary))
  /\ (forall k, In k (keys (ensure cat summary))
                <-> (exists e, In e seen /\ Store.e_category e = k) \/ k = cat)
  /\ (forall k v, In (k, v) (ensure cat summary) ->
        category v = k
        /\ total_amount v = sum_amounts (of_category k seen)
        /\ count v = Z.of_nat (List.length (of_category k seen))).
Proof.
  intros [Hnd [Hkeys Hent]]. unfold ensure.
  destruct (contains cat summary) eqn:Hc; simpl.
  - apply contains_keys in Hc.
    split; [exact Hnd |]. split; [| exact Hent].
    intro k. rewrite Hkeys. split; [intro H; left; exact H |].
    intros [H | ->]; [exact H | apply Hkeys; exact Hc].
  - assert (Hnot : ~ In cat (keys summary)).
    { intro H. apply contains_keys in H. congruence. }
    unfold setitem_new, keys. rewrite map_app. simpl.
    split; [| split].
    + apply NoDup_app; [exact Hnd | constructor; [intros [] | constructor] |].
      intros k Hk [<- | []]. apply Hnot. exact Hk.
    + intro k. rewrite in_app_iff. fold (keys summary). rewrite Hkeys. simpl.
      split; [intros [H | [<- | []]] | intros [H | ->]]; auto.
    + intros k v Hin. apply in_app_iff in Hin. destruct Hin as [Hin | [Heq | []]].
      * apply Hent. exact Hin.
      * injection Heq as <- <-. simpl.
        rewrite of_category_none; [repeat split; reflexivity |].
        intros e He Hcat. apply Hnot. apply Hkeys. exists e. split; assumption.
Qed.

Lemma tallied_nil : tallied [] [].
Proof.
  split; [constructor |]. split.
  - intro k. simpl. split; [intros [] | intros [e [[] _]]].
  - intros k v [].
Qed.

Lemma tallied_step (seen : list Store.expense) (summary : summary_dict)
      (e : Store.expense) :
  tallied seen summary -> tallied (seen ++ [e]) (tally summary e).
Proof.
  intro H. apply (ensure_spec _ _ (Store.e_category e)) in H.
  destruct H as [Hnd [Hkeys Hent]]. unfold tally.
  split; [| split].
  - rewrite keys_accumulate. exact Hnd.
  - intro k. rewrite keys_accumulate, Hkeys. split.
    + intros [[e' [He' Hk]] | ->].
      * exists e'. split; [apply in_or_app; left; exact He' | exact Hk].
      * exists e. split; [apply in_or_app; right; left; reflexivity | reflexivity].
    + intros [e' [He' Hk]]. apply in_app_iff in He'.
      destruct He' as [He' | [<- | []]].
      * left. exists e'. split; assumption.
      * right. symmetry. exact Hk.
  - intros k v Hin. apply In_accumulate in Hin; [| exact Hnd].
    rewrite of_category_snoc.
    destruct Hin as [[Hk Hin] | [-> [v0 [Hin ->]]]].
    + destruct (String.eqb_spec (Store.e_category e) k) as [Heq | _];
        [congruence |].
      rewrite app_nil_r. apply Hent. exact Hin.
    + rewrite String.eqb_refl.
      destruct (Hent _ _ Hin) as [Hc [Ht Hn]]. simpl.
      split; [exact Hc |]. split.
      * rewrite sum_amounts_snoc, Ht. reflexivity.
      * rewrite Hn, length_app. simpl. lia.
Qed.

Lemma tallied_fold (l seen : list Store.expense) (summary : summary_dict) :
  tallied seen summary -> tallied (seen ++ l) (fold_left tally l summary).
Proof.
  revert seen summary. induction l as [| e l IH]; intros seen summary H; simpl.
  - rewrite app_nil_r. exact H.
  - replace (seen ++ e :: l)%list with ((seen ++ [e]) ++ l)%list
      by (rewrite <- app_assoc; reflexivity).
    apply IH, tallied_step, H.
Qed.

(** On rows that carry a category and an amount the loop never raises,
    and it computes [tally] record by record. *)
Lemma summarize_loop_projected (l : list Store.expense) (summary : summary_dict) :
  summarize_loop
    (map (Store.project [Store.col_category; Store.col_amount]) l) summary
  = ret (fold_left tally l summary).
Proof.
  revert summary. induction l as [| e l IH]; intro summary; simpl.
  - reflexivity.
  - apply IH.
Qed.

End Aggregation.

(** ** [sorted(..., reverse=True)] *)

Section SortedFacts.
Context {X K : Type} (ltb : K -> K -> bool) (key : X -> K).

Lemma sorted_insert_perm (reverse : bool) (x : X) (l : list X) :
  Permutation (x :: l) (PySorted.insert ltb key reverse x l).
Proof.
  induction l as [| y l IH]; simpl.
  - apply Permutation_refl.
  - destruct (PySorted.must_follow ltb key reverse x y).
    + eapply perm_trans; [apply perm_swap |]. apply perm_skip. exact IH.
    + apply Permutation_refl.
Qed.

Lemma sorted_perm (reverse : bool) (l : list X) :
  Permutation l (PySorted.sorted ltb key reverse l).
Proof.
  induction l as [| x l IH]; simpl.
  - apply perm_nil.
  - eapply perm_trans; [apply perm_skip; exact IH |].
    apply sorted_insert_perm.
Qed.

Let desc (a b : X) : Prop := ltb (key a) (key b) = false.

Lemma strict_weak_on_incl (ks ks' : list K) :
  incl ks ks' -> PySorted.strict_weak_on ltb ks' -> PySorted.strict_weak_on ltb ks.
Proof.
  intros Hincl [Hasym Hneg]. split.
  - intros a b Ha Hb. apply Hasym; apply Hincl; assumption.
  - intros a b c Ha Hb Hc. apply Hneg; apply Hincl; assumption.
Qed.

Lemma sorted_insert_desc (x : X) (l : list X) :
  PySorted.strict_weak_on ltb (map key (x :: l)) ->
  StronglySorted desc l -> StronglySorted desc (PySorted.insert ltb key true x l).
Proof.
  induction l as [| y l IH]; intros W Hl; simpl.
  - constructor; constructor.
  - apply StronglySorted_inv in Hl. destruct Hl as [Hl Hy].
    unfold PySorted.must_follow.
    destruct (ltb (key x) (key y)) eqn:Hxy.
    + constructor.
      * apply IH; [| exact Hl].
        apply (strict_weak_on_incl _ (map key (x :: y :: l))); [| exact W].
        intros k [<- | Hk]; simpl; auto.
      * apply (Permutation_Forall (sorted_insert_perm true x l)).
        constructor; [| exact Hy].
        destruct W as [Hasym _]. apply Hasym; simpl; auto.
    + constructor; [constructor; assumption |].
      constructor; [exact Hxy |].
      rewrite Forall_forall in Hy |- *. intros z Hz.
      destruct W as [_ Hneg].
      apply (Hneg (key x) (key y) (key z)); simpl; auto.
      * right. right. apply in_map. exact Hz.
      * apply Hy. exact Hz.
Qed.

Lemma sorted_desc (l : list X) :
  PySorted.strict_weak_on ltb (map key l) ->
  StronglySorted desc (PySorted.sorted ltb key true l).
Proof.
  induction l as [| x l IH]; intro W; simpl.
  - constructor.
  - apply sorted_insert_desc.
    + apply (strict_weak_on_incl _ (map key (x :: l))); [| exact W].
      intros k [<- | Hk]; [left; reflexivity | right].
      apply in_map_iff in Hk. destruct Hk as [z [<- Hz]]. apply in_map.
      eapply Permutation_in; [apply Permutation_sym, sorted_perm | exact Hz].
    + apply IH.
      apply (strict_weak_on_incl _ (map key (x :: l))); [| exact W].
      intros k Hk. right. exact Hk.
Qed.

End SortedFacts.

(** ** C3: summaries *)

Section Summaries.
Context {A : Amount}.

Lemma Permutation_filter {T} (f : T -> bool) (l l' : list T) :
  Permutation l l' -> Permutation (filter f l) (filter f l').
Proof.
  induction 1 as [| x l l' _ IH | x y l | l l' l'' _ IH1 _ IH2]; simpl.
  - constructor.
  - destruct (f x); [apply perm_skip |]; exact IH.
  - destruct (f x), (f y); try apply Permutation_refl. apply perm_swap.
  - eapply perm_trans; eassumption.
Qed.

Lemma order_by_nil (l : list Store.expense) : Store.order_by [] l = l.
Proof.
  induction l as [| x l IH]; simpl; [reflexivity |].
  rewrite IH. destruct l; reflexivity.
Qed.

Lemma execute_range_query (d : Store.db) (start_date end_date : string) :
  Store.execute (range_query start_date end_date) d
  = (inr (map (Store.project [Store.col_category; Store.col_amount])
              (in_range_rows d start_date end_date)), d).
Proof.
  unfold in_range_rows.
  rewrite <- (filter_ext _ _ (matches_range start_date end_date)).
  rewrite <- (order_by_nil (filter _ (Store.rows d))).
  reflexivity.
Qed.

(** What [summarize] returns without a category filter. *)
Lemma run_summarize (d : Store.db) (start_date end_date : string) :
  run Store.execute (summarize start_date end_date None) d
  = (inr (SummarySequence
            (PySorted.sorted num_ltb total_amount true
               (values (fold_left tally (in_range_rows d start_date end_date) [])))),
     d).
Proof.
  unfold summarize. rewrite run_try_except, run_bind, run_execute.
  fold (range_query start_date end_date). rewrite execute_range_query.
  rewrite run_bind, summarize_loop_projected. reflexivity.
Qed.

Lemma categories_of_values (summary : summary_dict) :
  (forall k v, In (k, v) summary -> category v = k) ->
  map category (values summary) = keys summary.
Proof.
  induction summary as [| [k v] rest IH]; intro H; simpl; [reflexivity |].
  f_equal.
  - apply H. left. reflexivity.
  - apply IH. intros k' v' Hin. apply H. right. exact Hin.
Qed.

Lemma In_values (v : entry) (summary : summary_dict) :
  In v (values summary) -> exists k, In (k, v) summary.
Proof.
  unfold values. rewrite in_map_iff. intros [[k v'] [Heq Hin]].
  simpl in Heq. subst v'. exists k. exact Hin.
Qed.

(** The summary computed from the rows of a range, described in terms of
    those rows in the order the table delivers them. *)
Lemma summary_of_range (d : Store.db) (start_date end_date : string) :
  let arrived := in_range_rows d start_date end_date in
  let summary_list :=
    PySorted.sorted num_ltb total_amount true
                    (values (fold_left tally arrived [])) in
  NoDup (map category summary_list)
  /\ (forall c, In c (map category summary_list)
                <-> exists e, In e arrived /\ Store.e_category e = c)
  /\ (forall en, In en summary_list ->
        count en = Z.of_nat (List.length (of_category (category en) arrived))
        /\ total_amount en = sum_amounts (of_category (category en) arrived))
  /\ (PySorted.strict_weak_on num_ltb (map total_amount summary_list)
      -> StronglySorted total_desc summary_list).
Proof.
  intros arrived summary_list.
  set (summary := fold_left tally arrived []) in *.
  assert (Ht : tallied arrived summary)
    by apply (tallied_fold arrived [] [] tallied_nil).
  destruct Ht as [Hnd [Hkeys Hent]].
  assert (Hcats : map category (values summary) = keys summary).
  { apply categories_of_values. intros k v Hin. apply (Hent k v Hin). }
  pose proof (sorted_perm num_ltb total_amount true (values summary)) as Hsorted.
  fold summary_list in Hsorted.
  split; [| split; [| split]].
  - apply (Permutation_NoDup (l := keys summary)); [| exact Hnd].
    rewrite <- Hcats. apply Permutation_map. exact Hsorted.
  - intro c. rewrite <- Hkeys, <- Hcats.
    split; apply Permutation_in; apply Permutation_map;
      [apply Permutation_sym |]; exact Hsorted.
  - intros en Hen.
    apply (Permutation_in _ (Permutation_sym Hsorted)) in Hen.
    apply In_values in Hen. destruct Hen as [k Hen].
    destruct (Hent k en Hen) as [Hc [Htot Hcnt]]. rewrite Hc.
    split; assumption.
  - intro W. apply (sorted_desc num_ltb total_amount).
    apply (strict_weak_on_incl num_ltb _ (map total_amount summary_list));
      [| exact W].
    intros k Hk. apply in_map_iff in Hk. destruct Hk as [z [<- Hz]].
    apply in_map. eapply Permutation_in; [exact Hsorted | exact Hz].
Qed.

Lemma listing_perm (d : Store.db) (start_date end_date : string) :
  Permutation (in_range_rows d start_date end_date)
              (listing d start_date end_date).
Proof. apply order_by_perm. Qed.

(** C3.  On the reference table, let [records] be what
    [list_expenses start_date end_date] shows.  Then [summarize] over the
    same range, without a category, returns a bare sequence with exactly
    one entry per category occurring among [records] (none for a category
    with no record); the [count] of an entry is the number of [records] of
    its category; its [total_amount] is the sum of the amounts of just
    those records, each taken once, added from [0] in the order in which the
    store delivered them; and the entries are in descending order of
    [total_amount], provided [<] is a strict weak order on the totals (as it
    is on floats that are not NaN). *)
Theorem summarize_groups_by_category
        (d : Store.db) (start_date end_date : string) :
  exists (records : list Store.expense) (summary_list : list entry),
    run Store.execute (list_expenses start_date end_date) d
    = (inr (Sequence (map listed records)), d)
    /\ run Store.execute (summarize start_date end_date None) d
       = (inr (SummarySequence summary_list), d)
    /\ NoDup (map category summary_list)
    /\ (forall c, In c (map category summary_list)
                  <-> exists e, In e records /\ Store.e_category e = c)
    /\ (forall en, In en summary_list ->
          count en = Z.of_nat (List.length (of_category (category en) records))
          /\ exists arrival,
              Permutation arrival (of_category (category en) records)
              /\ total_amount en = sum_amounts arrival)
    /\ (PySorted.strict_weak_on num_ltb (map total_amount summary_list)
        -> StronglySorted total_desc summary_list).
Proof.
  pose proof (listing_perm d start_date end_date) as Hperm.
  destruct (summary_of_range d start_date end_date)
    as [Hnd [Hcat [Hent Hsorted]]].
  eexists. eexists.
  split; [apply run_list_expenses |].
  split; [apply run_summarize |].
  split; [exact Hnd |].
  split; [| split; [| exact Hsorted]].
  - intro c. rewrite Hcat.
    split; intros [e [He Hc]]; exists e; (split; [| exact Hc]).
    + eapply Permutation_in; [exact Hperm | exact He].
    + eapply Permutation_in; [apply Permutation_sym; exact Hperm | exact He].
  - intros en Hen. destruct (Hent en Hen) as [Hcnt Htot].
    assert (Hp : Permutation
                   (of_category (category en) (in_range_rows d start_date end_date))
                   (of_category (category en) (listing d start_date end_date)))
      by (apply Permutation_filter; exact Hperm).
    split.
    + rewrite Hcnt. f_equal. apply Permutation_length. exact Hp.
    + eexists. split; [exact Hp | exact Htot].
Qed.

(** A strict weak order on all amounts is one on any totals. *)
Lemma strict_weak_on_all (O : AmountOrder A) (ks : list num) :
  PySorted.strict_weak_on num_ltb ks.
Proof.
  split.
  - intros a b _ _. apply num_ltb_asym.
  - intros a b c _ _ _. apply num_ltb_negtrans.
Qed.

(** When addition does not depend on the order of the summands, the total
    of an entry is the sum over the listed records of its category, in
    whatever order. *)
Lemma sum_amounts_perm (S : AmountSum A) (l l' : list Store.expense) :
  Permutation l l' -> sum_amounts l = sum_amounts l'.
Proof.
  unfold sum_amounts. intro H. generalize num_zero.
  induction H as [| x l l' _ IH | x y l | l l' l'' _ IH1 _ IH2]; intro z; simpl.
  - reflexivity.
  - apply IH.
  - f_equal. rewrite <- !num_add_assoc. f_equal. apply num_add_comm.
  - rewrite IH1. apply IH2.
Qed.

(** With exact amounts (addition commutative and associative, [<] a
    strict weak order) the summary needs no proviso: each total is the sum
    over the listed records of the category, and the entries are in
    descending order. *)
Corollary summarize_exact_amounts
          (O : AmountOrder A) (S : AmountSum A)
          (d : Store.db) (start_date end_date : string) :
  exists summary_list : list entry,
    run Store.execute (summarize start_date end_date None) d
    = (inr (SummarySequence summary_list), d)
    /\ (forall en, In en summary_list ->
          total_amount en
          = sum_amounts (of_category (category en)
                                     (listing d start_date end_date)))
    /\ StronglySorted total_desc summary_list.
Proof.
  destruct (summary_of_range d start_date end_date)
    as [_ [_ [Hent Hsorted]]].
  eexists. split; [apply run_summarize |]. split.
  - intros en Hen. destruct (Hent en Hen) as [_ ->].
    apply sum_amounts_perm; [exact S |].
    apply Permutation_filter, listing_perm.
  - apply Hsorted. apply strict_weak_on_all. exact O.
Qed.

End Summaries.

Lemma Z_amount_order : AmountOrder Z_amount.
Proof.
  split; simpl.
  - intros a b H. apply Z.ltb_lt in H. apply Z.ltb_ge. lia.
  - intros a b c H1 H2. apply Z.ltb_ge in H1, H2. apply Z.ltb_ge. lia.
Qed.

Lemma Z_amount_sum : AmountSum Z_amount.
Proof. split; simpl; intros; lia. Qed.

(** Amounts kept as integers (cents, say) are exact. *)
Example summarize_integer_amounts (d : Store.db (A := Z_amount)) :
  exists summary_list : list (entry (A := Z_amount)),
    run Store.execute (summarize "2024-01-01" "2024-12-31" None) d
    = (inr (SummarySequence summary_list), d)
    /\ StronglySorted total_desc summary_list.
Proof.
  destruct (summarize_exact_amounts Z_amount_order Z_amount_sum d
                                    "2024-01-01" "2024-12-31")
    as [summary_list [Hrun [_ Hsorted]]].
  exists summary_list. split; assumption.
Qed.

(** ** C5: partial updates *)

Section Updates.
Context {A : Amount}.

Lemma matches_id (expense_id : Z) (e : Store.expense) :
  Store.matches [Store.f_eq Store.col_id (Store.VInt expense_id)] e
  = (Store.e_id e =? expense_id).
Proof.
  unfold Store.matches, Store.holds. simpl.
  destruct (Z.compare_spec (Store.e_id e) expense_id) as [H | H | H];
    symmetry; rewrite andb_true_r || idtac;
    [apply Z.eqb_eq | apply Z.eqb_neq | apply Z.eqb_neq]; lia.
Qed.

(** With a parsable date (or none) the program builds [update_data] from
    the supplied arguments and, unless it is empty, sends one update. *)
Lemma update_expense_program (expense_id : Z) (date : option string)
      (amount : option num) (category subcategory note : option string) :
  (forall s, date = Some s -> exists ymd, Py.strptime s = inr ymd) ->
  Store.is_empty (update_fields date amount category subcategory note) = false ->
  update_expense expense_id date amount category subcategory note
  = try_except
      (result <- execute
         (update_query expense_id
            (update_fields date amount category subcategory note)) ;;
       ret (Envelope "success"
                     ("Expense " ++ Py.str_int expense_id ++ " updated successfully")
                     (updated result)))
      [(Py.ValueError, fun e =>
          ret (error_envelope ("Invalid date format. Use YYYY-MM-DD: " ++ Py.exn_str e)));
       (Py.Exception, fun e =>
          ret (error_envelope ("Error updating expense: " ++ Py.exn_str e)))].
Proof.
  intros Hdate Hsome. unfold update_expense.
  destruct date as [s |].
  - destruct (Hdate s eq_refl) as [ymd Hs]. simpl if_not_None. unfold lift.
    rewrite Hs.
    destruct amount, category, subcategory, note; reflexivity.
  - destruct amount, category, subcategory, note;
      try reflexivity; discriminate Hsome.
Qed.

Lemma execute_update_query (d : Store.db) (expense_id : Z) (data : Store.row) :
  Store.r_id data = None ->
  Store.execute (update_query expense_id data) d
  = (inr (map Store.representation
              (map (Store.patch data)
                   (filter (fun e => Store.e_id e =? expense_id) (Store.rows d)))),
     Store.mk_db
       (map (fun e => if Store.e_id e =? expense_id then Store.patch data e else e)
            (Store.rows d))
       (Store.next_id d) (Store.now d)).
Proof.
  intro Hid. unfold Store.execute, update_query. simpl. rewrite Hid.
  f_equal.
  - do 3 f_equal. apply filter_ext. intro e. apply matches_id.
  - f_equal. apply map_ext. intro e. rewrite <- (matches_id expense_id e).
    reflexivity.
Qed.

Lemma Forall2_map_same {T} (P : T -> T -> Prop) (f : T -> T) (l : list T) :
  (forall x, P x (f x)) -> Forall2 P l (map f l).
Proof.
  intro H. induction l as [| x l IH]; simpl; constructor; [apply H | exact IH].
Qed.

(** C5.  An [update_expense] call that supplies at least one field (with
    a parsable date, if it supplies a date) sends exactly one query: the
    update, keyed by [expense_id], of just the supplied fields.  Against the
    reference table it returns the success envelope, and every record of the
    table is then as before except that, in the record whose id is
    [expense_id], each supplied field has its new value.  Omitted fields keep
    their prior value, and no record's [id] or [created_at] changes. *)
Theorem update_expense_touches_supplied_fields
        (d : Store.db) (expense_id : Z) (date : option string)
        (amount : option num) (category subcategory note : option string)
        (Hdate : forall s, date = Some s -> exists ymd, Py.strptime s = inr ymd)
        (Hsome : Store.is_empty
                   (update_fields date amount category subcategory note) = false) :
  exists (data : list Store.row) (d' : Store.db),
    run Store.execute
        (update_expense expense_id date amount category subcategory note) d
    = (inr (Envelope "success"
                     ("Expense " ++ Py.str_int expense_id ++ " updated successfully")
                     (updated data)), d')
    /\ calls Store.execute
             (update_expense expense_id date amount category subcategory note) d
       = [update_query expense_id
            (update_fields date amount category subcategory note)]
    /\ Forall2
         (fun e e' =>
            Store.e_id e' = Store.e_id e
            /\ Store.e_created_at e' = Store.e_created_at e
            /\ (Store.e_id e <> expense_id -> e' = e)
            /\ (Store.e_id e = expense_id ->
                field_after date (Store.e_date e) (Store.e_date e')
                /\ field_after amount (Store.e_amount e) (Store.e_amount e')
                /\ field_after category (Store.e_category e) (Store.e_category e')
                /\ field_after subcategory (Store.e_subcategory e)
                               (Store.e_subcategory e')
                /\ field_after note (Store.e_note e) (Store.e_note e')))
         (Store.rows d) (Store.rows d').
Proof.
  rewrite (update_expense_program expense_id _ _ _ _ _ Hdate Hsome).
  set (fields := update_fields date amount category subcategory note).
  eexists. eexists. split; [| split].
  - rewrite run_try_except, run_bind, run_execute.
    rewrite execute_update_query by reflexivity. reflexivity.
  - unfold try_except. apply calls_execute_once.
    + intro rows. eexists. reflexivity.
    + intros [[[] m] | r]; eexists; reflexivity.
  - simpl. apply Forall2_map_same. intro e.
    destruct (Z.eqb_spec (Store.e_id e) expense_id) as [Heq | Hne].
    + split; [reflexivity |]. split; [reflexivity |].
      split; [intro H; contradiction |]. intros _.
      unfold fields, update_fields.
      destruct date, amount, category, subcategory, note; simpl;
        repeat split; reflexivity.
    + split; [reflexivity |]. split; [reflexivity |].
      split; [reflexivity | intro H; contradiction].
Qed.

(** With a date that [strptime] rejects nothing is sent, whatever else is
    supplied. *)
Lemma update_expense_rejects_unparsable_date
      (expense_id : Z) (date : string) (amount : option num)
      (category subcategory note : option string) (e : Py.exn) :
  Py.strptime date = inl e ->
  update_expense expense_id (Some date) amount category subcategory note
  = Ret (inr (error_envelope
                ("Invalid date format. Use YYYY-MM-DD: " ++ Py.exn_str e))).
Proof.
  intro Hparse. pose proof (strptime_raises_ValueError _ _ Hparse) as Hcls.
  unfold update_expense, try_except. simpl if_not_None. unfold lift.
  rewrite Hparse. simpl. unfold Py.isinstance. rewrite Hcls. reflexivity.
Qed.

End Updates.

(** ** C7: deleting *)

Section Deleting.
Context {A : Amount}.

Lemma execute_delete_query (d : Store.db) (expense_id : Z) :
  Store.execute (delete_query expense_id) d
  = (inr (map Store.representation
              (filter (fun e => Store.e_id e =? expense_id) (Store.rows d))),
     Store.mk_db (filter (fun e => negb (Store.e_id e =? expense_id)) (Store.rows d))
                 (Store.next_id d) (Store.now d)).
Proof.
  unfold Store.execute, delete_query. simpl. f_equal.
  - do 2 f_equal. apply filter_ext. intro e. apply matches_id.
  - f_equal. apply filter_ext. intro e. rewrite <- (matches_id expense_id e).
    reflexivity.
Qed.

(** C7.  Whenever the store answers the delete query with rows rather
    than an exception, [delete_expense] returns the success envelope whose
    message names the id.  The rows the store reports as removed play no
    part in the result: it is the same envelope when nothing was removed.
    In particular, on the reference table the outcome is this envelope in
    every state, whether or not a record has that id. *)
Theorem delete_expense_reports_success
        (S : Type) (handle : Store.query -> S -> Store.reply * S) (s s' : S)
        (expense_id : Z) (removed : list Store.row)
        (Hcall : handle (delete_query expense_id) s = (inr removed, s')) :
  run handle (delete_expense expense_id) s
  = (inr (Envelope "success"
                   ("Expense " ++ Py.str_int expense_id ++ " deleted successfully")
                   no_payload), s')
  /\ forall d : Store.db,
      fst (run Store.execute (delete_expense expense_id) d)
      = inr (Envelope "success"
                      ("Expense " ++ Py.str_int expense_id ++ " deleted successfully")
                      no_payload).
Proof.
  split.
  - unfold delete_expense. rewrite run_try_except, run_bind, run_execute.
    fold (delete_query expense_id). rewrite Hcall. reflexivity.
  - intro d. unfold delete_expense.
    rewrite run_try_except, run_bind, run_execute.
    fold (delete_query expense_id). rewrite execute_delete_query. reflexivity.
Qed.

(** Deleting an id that no record has leaves the table as it is. *)
Lemma delete_expense_missing_id (d : Store.db) (expense_id : Z) :
  ~ In expense_id (Store.ids (Store.rows d)) ->
  run Store.execute (delete_expense expense_id) d
  = (inr (Envelope "success"
                   ("Expense " ++ Py.str_int expense_id ++ " deleted successfully")
                   no_payload), d).
Proof.
  intro Hnot. unfold delete_expense.
  rewrite run_try_except, run_bind, run_execute.
  fold (delete_query expense_id). rewrite execute_delete_query.
  simpl. f_equal. destruct d as [rows next clock]. simpl in *. f_equal.
  induction rows as [| e rows IH]; simpl; [reflexivity |].
  destruct (Z.eqb_spec (Store.e_id e) expense_id) as [Heq | Hne]; simpl.
  - exfalso. apply Hnot. left. exact Heq.
  - f_equal. apply IH. intro H. apply Hnot. right. exact H.
Qed.

End Deleting.

(** ** C8, C10: adding *)

Section Adding.
Context {A : Amount}.

Lemma fresh_next_id (d : Store.db) :
  Store.db_ok d -> ~ In (Store.next_id d) (Store.ids (Store.rows d)).
Proof.
  intros [_ Hlt] Hin. rewrite Forall_forall in Hlt.
  specialize (Hlt _ Hin). lia.
Qed.

Lemma existsb_fresh (d : Store.db) :
  Store.db_ok d ->
  existsb (Z.eqb (Store.next_id d)) (Store.ids (Store.rows d)) = false.
Proof.
  intro Hok. destruct (existsb _ _) eqn:H; [| reflexivity].
  apply existsb_exists in H. destruct H as [i [Hin Heq]].
  apply Z.eqb_eq in Heq. subst i. exfalso. exact (fresh_next_id d Hok Hin).
Qed.

Lemma execute_insert_query (d : Store.db) (date : string) (amount : num)
      (category subcategory note : string) :
  Store.db_ok d ->
  Store.execute (insert_query date amount category subcategory note) d
  = (inr [Store.representation
            (new_expense d date amount category subcategory note)],
     after_add d (new_expense d date amount category subcategory note)).
Proof.
  intro Hok. unfold Store.execute, insert_query. simpl.
  rewrite (existsb_fresh d Hok). reflexivity.
Qed.

Lemma run_add_expense (d : Store.db) (date : string) (amount : num)
      (category subcategory note : string) (ymd : Z * Z * Z) :
  Store.db_ok d ->
  Py.strptime date = inr ymd ->
  run Store.execute (add_expense date amount category subcategory note) d
  = (inr (Envelope "success" "Expense added successfully"
                   (added (Store.next_id d)
                          (Store.representation
                             (new_expense d date amount category subcategory note)))),
     after_add d (new_expense d date amount category subcategory note)).
Proof.
  intros Hok Hdate. unfold add_expense.
  rewrite run_try_except, run_bind. unfold lift. rewrite Hdate.
  simpl run at 1. cbv beta iota. rewrite run_bind, run_execute.
  fold (insert_query date (py_float amount) category subcategory note).
  rewrite execute_insert_query by exact Hok. reflexivity.
Qed.

Lemma db_ok_after_add (d : Store.db) (date : string) (amount : num)
      (category subcategory note : string) :
  Store.db_ok d ->
  Store.db_ok (after_add d (new_expense d date amount category subcategory note)).
Proof.
  intros Hok. pose proof (fresh_next_id d Hok) as Hfresh.
  destruct Hok as [Hnd Hlt]. unfold Store.db_ok, after_add, Store.ids. simpl.
  rewrite map_app. simpl. split.
  - apply NoDup_app; [exact Hnd | constructor; [intros [] | constructor] |].
    intros i Hi [<- | []]. exact (Hfresh Hi).
  - apply Forall_app. split.
    + eapply Forall_impl; [| exact Hlt]. intros i Hi. simpl in Hi. lia.
    + constructor; [lia | constructor].
Qed.


(** C10.  ["2024-1-1"] is not in the strict form [YYYY-MM-DD], yet
    [strptime] accepts it: [add_expense] sends the insert with the date
    exactly as given, and on a reference table returns the success envelope,
    the new record carrying the date ["2024-1-1"]. *)
Theorem add_expense_accepts_unpadded_date
        (d : Store.db) (amount : num) (category subcategory note : string)
        (Hok : Store.db_ok d) :
  strict_iso "2024-1-1" = false
  /\ calls Store.execute
           (add_expense "2024-1-1" amount category subcategory note) d
     = [insert_query "2024-1-1" amount category subcategory note]
  /\ exists (stored : Store.row) (d' : Store.db),
      run Store.execute (add_expense "2024-1-1" amount category subcategory note) d
      = (inr (Envelope "success" "Expense added successfully"
                       (added (Store.next_id d) stored)), d')
      /\ Store.r_date stored = Some "2024-1-1"
      /\ In (Store.mk_expense (Store.next_id d) "2024-1-1" amount category
                              subcategory note (Store.now d))
            (Store.rows d').
Proof.
  split; [reflexivity |]. split.
  - unfold add_expense, try_except. simpl.
    fold (insert_query "2024-1-1" (py_float amount) category subcategory note).
    rewrite execute_insert_query by exact Hok. reflexivity.
  - eexists. eexists. split.
    + apply (run_add_expense d "2024-1-1" amount category subcategory note
                             (2024, 1, 1) Hok).
      reflexivity.
    + split; [reflexivity |].
      simpl. apply in_or_app. right. left. reflexivity.
Qed.

End Adding.

(** ** The theorems at work on a ledger of floats *)

Lemma sample_ledger_ok : Store.db_ok sample_ledger.
Proof.
  split.
  - repeat constructor; simpl; intuition discriminate.
  - repeat constructor.
Qed.

Example sample_listing :
  fst (run Store.execute (list_expenses "2024-01-01" "2024-01-31") sample_ledger)
  = inr (Sequence
           [Store.mk_row (A := float_amount) (Some 3) (Some "2024-01-07") (Some 4.25%float)
                         (Some "Food & Dining") (Some "snack") (Some "") None;
            Store.mk_row (A := float_amount) (Some 2) (Some "2024-01-07") (Some 30%float)
                         (Some "Transportation") (Some "") (Some "train") None;
            Store.mk_row (A := float_amount) (Some 1) (Some "2024-01-05") (Some 12.5%float)
                         (Some "Food & Dining") (Some "") (Some "lunch") None]).
Proof. vm_compute. reflexivity. Qed.

Example sample_summary :
  fst (run Store.execute (summarize "2024-01-01" "2024-01-31" None) sample_ledger)
  = inr (SummarySequence
           [mk_entry (A := float_amount) "Transportation" 30%float 1;
            mk_entry (A := float_amount) "Food & Dining" 16.75%float 2]).
Proof. vm_compute. reflexivity. Qed.

Example sample_summary_empty_category :
  fst (run Store.execute (summarize "2024-01-01" "2024-01-31" (Some "")) sample_ledger)
  = inr (SummarySequence
           [mk_entry (A := float_amount) "Transportation" 30%float 1;
            mk_entry (A := float_amount) "Food & Dining" 16.75%float 2]).
Proof. vm_compute. reflexivity. Qed.

Example sample_summary_one_category :
  fst (run Store.execute
           (summarize "2024-01-01" "2024-01-31" (Some "Food & Dining")) sample_ledger)
  = inr (SummarySequence [mk_entry (A := float_amount) "Food & Dining" 16.75%float 2]).
Proof. vm_compute. reflexivity. Qed.

(** C3 on the sample ledger; the two totals are ordinary floats, on which
    [<] is a strict weak order, so the summary is in descending order. *)
Lemma summarize_groups_by_category_witness :
  exists (records : list Store.expense) (summary_list : list entry),
    run Store.execute (list_expenses "2024-01-01" "2024-01-31") sample_ledger
    = (inr (Sequence (map listed records)), sample_ledger)
    /\ run Store.execute (summarize "2024-01-01" "2024-01-31" None) sample_ledger
       = (inr (SummarySequence summary_list), sample_ledger)
    /\ NoDup (map category summary_list)
    /\ (forall c, In c (map category summary_list)
                  <-> exists e, In e records /\ Store.e_category e = c)
    /\ (forall en, In en summary_list ->
          count en = Z.of_nat (List.length (of_category (category en) records))
          /\ exists arrival,
              Permutation arrival (of_category (category en) records)
              /\ total_amount en = sum_amounts arrival)
    /\ StronglySorted total_desc summary_list.
Proof.
  destruct (summarize_groups_by_category sample_ledger "2024-01-01" "2024-01-31")
    as (records & summary_list & Hlist & Hsum & Hnd & Hcat & Hent & Hsorted).
  exists records, summary_list.
  repeat (split; [assumption |]).
  apply Hsorted.
  assert (Hl : summary_list
               = [mk_entry (A := float_amount) "Transportation" 30%float 1;
                  mk_entry (A := float_amount) "Food & Dining" 16.75%float 2]).
  { vm_compute in Hsum. injection Hsum as <-. reflexivity. }
  rewrite Hl. split.
  - intros a b Ha Hb. simpl in Ha, Hb.
    destruct Ha as [<- | [<- | []]]; destruct Hb as [<- | [<- | []]];
      vm_compute; congruence.
  - intros a b c Ha Hb Hc. simpl in Ha, Hb, Hc.
    destruct Ha as [<- | [<- | []]]; destruct Hb as [<- | [<- | []]];
      destruct Hc as [<- | [<- | []]]; vm_compute; congruence.
Defined.

(** C5 on the sample ledger: [update_expense(2, amount=42.5)]. *)
Lemma update_expense_touches_supplied_fields_witness :
  exists (data : list Store.row) (d' : Store.db),
    run Store.execute
        (update_expense (A := float_amount) 2 None (Some 42.5%float) None None None)
        sample_ledger
    = (inr (Envelope "success" "Expense 2 updated successfully" (updated data)), d')
    /\ calls Store.execute
             (update_expense (A := float_amount) 2 None (Some 42.5%float)
                             None None None) sample_ledger
       = [update_query 2 (update_fields (A := float_amount) None (Some 42.5%float) None None None)]
    /\ Forall2
         (fun e e' : Store.expense (A := float_amount) =>
            Store.e_id e' = Store.e_id e
            /\ Store.e_created_at e' = Store.e_created_at e
            /\ (Store.e_id e <> 2 -> e' = e)
            /\ (Store.e_id e = 2 ->
                field_after None (Store.e_date e) (Store.e_date e')
                /\ field_after (Some 42.5%float) (Store.e_amount e) (Store.e_amount e')
                /\ field_after None (Store.e_category e) (Store.e_category e')
                /\ field_after None (Store.e_subcategory e) (Store.e_subcategory e')
                /\ field_after None (Store.e_note e) (Store.e_note e')))
         (Store.rows sample_ledger) (Store.rows d').
Proof.
  apply (update_expense_touches_supplied_fields
           sample_ledger 2 None (Some 42.5%float) None None None).
  - intros s H. discriminate H.
  - reflexivity.
Defined.

Example sample_update :
  Store.rows
    (snd (run Store.execute
              (update_expense (A := float_amount) 2 None (Some 42.5%float)
                              None None None) sample_ledger))
  = [Store.mk_expense (A := float_amount) 1 "2024-01-05" 12.5%float "Food & Dining" "" "lunch"
                      "2024-01-05T12:30:00+00:00";
     Store.mk_expense (A := float_amount) 2 "2024-01-07" 42.5%float "Transportation" "" "train"
                      "2024-01-07T08:00:00+00:00";
     Store.mk_expense (A := float_amount) 3 "2024-01-07" 4.25%float "Food & Dining" "snack" ""
                      "2024-01-07T16:45:00+00:00"].
Proof. vm_compute. reflexivity. Qed.

(** C7 on the sample ledger: no record has id 99, the store answers the
    delete with no rows, and the envelope reports success all the same. *)
Lemma delete_expense_reports_success_witness :
  run Store.execute (delete_expense (A := float_amount) 99) sample_ledger
  = (inr (Envelope "success" "Expense 99 deleted successfully" no_payload),
     sample_ledger)
  /\ forall d : Store.db (A := float_amount),
      fst (run Store.execute (delete_expense 99) d)
      = inr (Envelope "success" "Expense 99 deleted successfully" no_payload).
Proof.
  apply (delete_expense_reports_success
           (A := float_amount) _ Store.execute sample_ledger sample_ledger 99 []).
  vm_compute. reflexivity.
Defined.

Example sample_delete_existing :
  run Store.execute (delete_expense 2) sample_ledger
  = (inr (Envelope "success" "Expense 2 deleted successfully" no_payload),
     Store.mk_db (A := float_amount)
       [Store.mk_expense (A := float_amount) 1 "2024-01-05" 12.5%float "Food & Dining" "" "lunch"
                         "2024-01-05T12:30:00+00:00";
        Store.mk_expense (A := float_amount) 3 "2024-01-07" 4.25%float "Food & Dining" "snack" ""
                         "2024-01-07T16:45:00+00:00"]
       4 "2024-01-08T09:00:00+00:00").
Proof. vm_compute. reflexivity. Qed.





(** C10 on the sample ledger. *)
Lemma add_expense_accepts_unpadded_date_witness :
  strict_iso "2024-1-1" = false
  /\ calls Store.execute
           (add_expense (A := float_amount) "2024-1-1" 8.75%float "Groceries" "" "milk")
           sample_ledger
     = [insert_query (A := float_amount) "2024-1-1" 8.75%float "Groceries" "" "milk"]
  /\ exists (stored : Store.row) (d' : Store.db),
      run Store.execute
          (add_expense (A := float_amount) "2024-1-1" 8.75%float "Groceries" "" "milk")
          sample_ledger
      = (inr (Envelope "success" "Expense added successfully" (added 4 stored)), d')
      /\ Store.r_date stored = Some "2024-1-1"
      /\ In (Store.mk_expense (A := float_amount) 4 "2024-1-1" 8.75%float "Groceries" "" "milk"
                              "2024-01-08T09:00:00+00:00")
            (Store.rows d').
Proof.
  apply (add_expense_accepts_unpadded_date
           sample_ledger 8.75%float "Groceries" "" "milk").
  exact sample_ledger_ok.
Defined.

(** An unpadded date is accepted and stored as text, and compared as text:
    ["2024-1-5"] sorts after ["2024-01-31"], so a listing of January 2024
    with padded bounds does not show it. *)
Example unpadded_date_outside_padded_range :
  exists d' : Store.db (A := float_amount),
    snd (run Store.execute
             (add_expense (A := float_amount) "2024-1-5" 8.75%float "Groceries" "" "milk")
             (Store.empty_db "2024-01-08T09:00:00+00:00")) = d'
    /\ Store.ids (Store.rows d') = [1]
    /\ run Store.execute (list_expenses "2024-01-01" "2024-01-31") d'
       = (inr (Sequence []), d').
Proof. eexists. split; [reflexivity |]. split; vm_compute; reflexivity. Qed.

(** ** [strptime] on a few dates *)

Example strptime_iso : Py.strptime "2024-02-29" = inr (2024, 2, 29).
Proof. reflexivity. Qed.

Example strptime_unpadded : Py.strptime "2024-1-1" = inr (2024, 1, 1).
Proof. reflexivity. Qed.

Example strptime_slashes :
  Py.strptime "2024/01/01"
  = inl (Py.mk_exn Py.ValueError
           "time data '2024/01/01' does not match format '%Y-%m-%d'").
Proof. reflexivity. Qed.

Example strptime_trailing :
  Py.strptime "2024-01-011"
  = inl (Py.mk_exn Py.ValueError "unconverted data remains: 1").
Proof. reflexivity. Qed.

Example strptime_feb30 :
  Py.strptime "2023-02-29"
  = inl (Py.mk_exn Py.ValueError "day is out of range for month").
Proof. reflexivity. Qed.

Example strptime_year0 :
  Py.strptime "0000-01-01"
  = inl (Py.mk_exn Py.ValueError "year 0 is out of range").
Proof. reflexivity. Qed.

(** * Further properties of the operations *)

(** ** One query per call *)

Section OneQuery.
Context {A : Amount}.

Lemma dispatch_returns {R} (h : Py.exn -> py R) (o : Py.exn + R) :
  (forall e, exists r, h e = Ret r) ->
  exists r,
    match o with
    | inl e => dispatch [(Py.Exception, h)] e
    | inr r => ret r
    end = Ret r.
Proof.
  intro Hh. destruct o as [e | r]; simpl.
  - apply Hh.
  - eexists. reflexivity.
Qed.

Lemma dispatch2_returns {R} (h1 h2 : Py.exn -> py R) (o : Py.exn + R) :
  (forall e, exists r, h1 e = Ret r) ->
  (forall e, exists r, h2 e = Ret r) ->
  exists r,
    match o with
    | inl e => dispatch [(Py.ValueError, h1); (Py.Exception, h2)] e
    | inr r => ret r
    end = Ret r.
Proof.
  intros H1 H2. destruct o as [e | r]; simpl.
  - destruct (Py.exn_cls e); first [apply H1 | apply H2].
  - eexists. reflexivity.
Qed.

Ltac returns := intros; eexists; reflexivity.

Ltac one_call :=
  right; eexists; split;
  [unfold try_except; apply calls_execute_once;
   [ | intro o; first [apply dispatch2_returns | apply dispatch_returns]; returns]
  | reflexivity].

(** Whatever tool is called and however the store behaves, the call sends
    no query at all or exactly one, and that one addresses the table
    [expenses_test]. *)
Theorem tool_call_sends_at_most_one_query
        (S : Type) (handle : Store.query -> S -> Store.reply * S) (s : S)
        (c : tool_call) :
  calls handle (invoke c) s = []
  \/ exists q, calls handle (invoke c) s = [q]
               /\ Store.q_table q = "expenses_test".
Proof.
  destruct c as [date amount category subcategory note
                | start_date end_date
                | start_date end_date category
                | expense_id
                | expense_id date amount category subcategory note];
    simpl invoke.
  - unfold add_expense, lift.
    destruct (Py.strptime date) as [e | ymd].
    + left. unfold try_except. simpl.
      destruct (Py.exn_cls e); reflexivity.
    + one_call. intros [| first rest]; [returns |].
      unfold getitem. destruct (Store.r_id first); returns.
  - unfold list_expenses. one_call. returns.
  - unfold summarize. one_call
    || (right; eexists; split;
        [unfold try_except; apply calls_execute_once;
         [ | intro o; apply dispatch_returns; returns]
        | destruct category as [c |]; [destruct (truthy (Some c)) |];
          reflexivity]).
    intro data. unfold bind.
    destruct (summarize_loop_pure data []) as [[e | summary] ->]; returns.
  - unfold delete_expense. one_call. returns.
  - unfold update_expense, lift.
    destruct date as [date |]; simpl if_not_None.
    + destruct (Py.strptime date) as [e | ymd].
      * left. unfold try_except. simpl.
        destruct (Py.exn_cls e); reflexivity.
      * destruct amount, category, subcategory, note; simpl bind;
          one_call; returns.
    + destruct amount, category, subcategory, note; simpl bind;
        try (left; reflexivity); one_call; returns.
Qed.

End OneQuery.

(** ** How failures of the store are reported *)

Section StoreFailures.
Context {A : Amount}.

Lemma parses_inr (date : string) :
  parses date = true -> exists ymd, Py.strptime date = inr ymd.
Proof.
  unfold parses. destruct (Py.strptime date) as [e | ymd]; [discriminate |].
  intros _. exists ymd. reflexivity.
Qed.

(** The program of a call that passes the local checks: one [try] block
    around the query. *)
Lemma update_expense_checked (expense_id : Z) (date : option string)
      (amount : option num) (category subcategory note : option string)
      (q : Store.query) :
  query_of (call_update_expense expense_id date amount category subcategory note)
  = Some q ->
  q = update_query expense_id
        (update_fields date amount category subcategory note)
  /\ (forall s, date = Some s -> exists ymd, Py.strptime s = inr ymd)
  /\ Store.is_empty (update_fields date amount category subcategory note) = false.
Proof.
  simpl. destruct (_ && _) eqn:H; [| discriminate].
  apply andb_true_iff in H. destruct H as [Hd He].
  intro Hq. injection Hq as <-. split; [reflexivity |]. split.
  - intros s ->. apply parses_inr. exact Hd.
  - apply negb_true_iff. exact He.
Qed.

(** When the store client raises on the query of a call, the call returns
    an error envelope whose message is the operation's prefix followed by
    the text of the exception; the store is left as the failed query left
    it.  In [add_expense] and [update_expense] a [ValueError] raised by the
    client falls into the clause meant for the date check and is reported as
    a date-format error. *)
Theorem store_failure_becomes_error_envelope
        (S : Type) (handle : Store.query -> S -> Store.reply * S) (s s' : S)
        (c : tool_call) (q : Store.query) (e : Py.exn)
        (Hq : query_of c = Some q)
        (Hfail : handle q s = (inl e, s')) :
  run handle (invoke c) s
  = (inr (error_envelope (failure_prefix c e ++ Py.exn_str e)), s').
Proof.
  destruct c as [date amount category subcategory note
                | start_date end_date
                | start_date end_date category
                | expense_id
                | expense_id date amount category subcategory note].
  - simpl in Hq. destruct (parses date) eqn:Hp; [| discriminate].
    injection Hq as <-. apply parses_inr in Hp. destruct Hp as [ymd Hp].
    simpl invoke. unfold add_expense.
    rewrite run_try_except, run_bind. unfold lift. rewrite Hp.
    simpl run at 1. cbv beta iota. rewrite run_bind, run_execute.
    fold (insert_query date (py_float amount) category subcategory note).
    unfold py_float. rewrite Hfail. simpl.
    destruct (Py.exn_cls e); reflexivity.
  - injection Hq as <-. simpl invoke. unfold list_expenses.
    rewrite run_try_except, run_bind, run_execute.
    fold (list_query start_date end_date). rewrite Hfail. reflexivity.
  - injection Hq as <-. simpl invoke. unfold summarize.
    rewrite run_try_except, run_bind, run_execute.
    fold (range_query start_date end_date).
    fold (summarize_query start_date end_date category).
    rewrite Hfail. reflexivity.
  - injection Hq as <-. simpl invoke. unfold delete_expense.
    rewrite run_try_except, run_bind, run_execute.
    fold (delete_query expense_id). rewrite Hfail. reflexivity.
  - apply update_expense_checked in Hq. destruct Hq as [-> [Hdate Hsome]].
    simpl invoke. rewrite (update_expense_program _ _ _ _ _ _ Hdate Hsome).
    rewrite run_try_except, run_bind, run_execute, Hfail. simpl.
    destruct (Py.exn_cls e); reflexivity.
Qed.

(** What [add_expense] makes of the rows the store returns for the insert:
    with no row it reports failure; otherwise it reads the id of the first
    row and returns that row, and a first row without an id becomes a
    "Database error" naming the missing key. *)
Theorem add_expense_reads_first_returned_row
        (S : Type) (handle : Store.query -> S -> Store.reply * S) (s s' : S)
        (date : string) (amount : num) (category subcategory note : string)
        (data : list Store.row)
        (Hdate : parses date = true)
        (Hreply : handle (insert_query date amount category subcategory note) s
                  = (inr data, s')) :
  run handle (add_expense date amount category subcategory note) s
  = (inr match data with
         | [] => error_envelope "Failed to add expense"
         | first :: _ =>
             match Store.r_id first with
             | Some expense_id =>
                 Envelope "success" "Expense added successfully"
                          (added expense_id first)
             | None => error_envelope "Database error: 'id'"
             end
         end, s').
Proof.
  apply parses_inr in Hdate. destruct Hdate as [ymd Hp].
  unfold add_expense. rewrite run_try_except, run_bind. unfold lift. rewrite Hp.
  simpl run at 1. cbv beta iota. rewrite run_bind, run_execute.
  fold (insert_query date (py_float amount) category subcategory note).
  unfold py_float. rewrite Hreply.
  destruct data as [| first rest]; [reflexivity |].
  unfold getitem. destruct (Store.r_id first); reflexivity.
Qed.

End StoreFailures.

(** ** More on summaries *)

Section SummaryFacts.
Context {A : Amount}.

Lemma holds_category (c : string) (e : Store.expense) :
  Store.holds e (Store.f_eq Store.col_category (Store.VStr c))
  = String.eqb (Store.e_category e) c.
Proof.
  unfold Store.holds. simpl.
  destruct (String.eqb_spec (Store.e_category e) c) as [-> | Hne].
  - rewrite string_compare_refl. reflexivity.
  - destruct (String.compare (Store.e_category e) c) eqn:H; try reflexivity.
    apply String.compare_eq_iff in H. contradiction.
Qed.

Lemma filter_filter {T} (f g : T -> bool) (l : list T) :
  filter g (filter f l) = filter (fun x => f x && g x) l.
Proof.
  induction l as [| x l IH]; simpl; [reflexivity |].
  destruct (f x); simpl; [destruct (g x) |]; rewrite IH; reflexivity.
Qed.

Lemma execute_summarize_query (d : Store.db) (start_date end_date : string)
      (category : option string) :
  Store.execute (summarize_query start_date end_date category) d
  = (inr (map (Store.project [Store.col_category; Store.col_amount])
              (selected d start_date end_date category)), d).
Proof.
  unfold summarize_query, selected.
  destruct category as [c |]; [| apply execute_range_query].
  destruct (truthy (Some c)); [| apply execute_range_query].
  unfold of_category, in_range_rows. rewrite filter_filter.
  rewrite <- (order_by_nil (filter _ (Store.rows d))).
  unfold Store.execute. simpl. do 4 f_equal.
  apply filter_ext. intro e. unfold Store.matches. simpl.
  rewrite holds_category, andb_true_r.
  pose proof (matches_range start_date end_date e) as H.
  unfold Store.matches in H. simpl in H. rewrite andb_true_r in H.
  rewrite andb_assoc, H. reflexivity.
Qed.

(** What [summarize] returns on the reference table, with or without a
    category. *)
Lemma run_summarize_any (d : Store.db) (start_date end_date : string)
      (category : option string) :
  run Store.execute (summarize start_date end_date category) d
  = (inr (SummarySequence
            (PySorted.sorted num_ltb total_amount true
               (values (fold_left tally
                                  (selected d start_date end_date category) [])))),
     d).
Proof.
  unfold summarize. rewrite run_try_except, run_bind, run_execute.
  fold (range_query start_date end_date).
  fold (summarize_query start_date end_date category).
  rewrite execute_summarize_query.
  rewrite run_bind, summarize_loop_projected. reflexivity.
Qed.

End SummaryFacts.

Section SummaryShape.
Context {A : Amount}.

(** The summary of any list of records, in terms of that list. *)
Lemma summary_of_records (l : list Store.expense) :
  let summary := fold_left tally l [] in
  let summary_list := PySorted.sorted num_ltb total_amount true (values summary) in
  Permutation (values summary) summary_list
  /\ map category (values summary) = keys summary
  /\ NoDup (keys summary)
  /\ (forall c, In c (keys summary) <-> exists e, In e l /\ Store.e_category e = c)
  /\ (forall en, In en summary_list ->
        count en = Z.of_nat (List.length (of_category (category en) l))
        /\ total_amount en = sum_amounts (of_category (category en) l)).
Proof.
  intros summary summary_list.
  assert (Ht : tallied l summary) by apply (tallied_fold l [] [] tallied_nil).
  destruct Ht as [Hnd [Hkeys Hent]].
  pose proof (sorted_perm num_ltb total_amount true (values summary)) as Hsorted.
  fold summary_list in Hsorted.
  split; [exact Hsorted |].
  split; [apply categories_of_values; intros k v Hin; apply (Hent k v Hin) |].
  split; [exact Hnd |]. split; [exact Hkeys |].
  intros en Hen.
  apply (Permutation_in _ (Permutation_sym Hsorted)) in Hen.
  apply In_values in Hen. destruct Hen as [k Hen].
  destruct (Hent k en Hen) as [Hc [Htot Hcnt]]. rewrite Hc.
  split; assumption.
Qed.

Lemma of_category_idem (c : string) (l : list Store.expense) :
  of_category c (of_category c l) = of_category c l.
Proof.
  unfold of_category. rewrite filter_filter. apply filter_ext.
  intro e. apply andb_diag.
Qed.

Lemma of_category_In (c : string) (l : list Store.expense) (e : Store.expense) :
  In e (of_category c l) <-> In e l /\ Store.e_category e = c.
Proof.
  unfold of_category. rewrite filter_In, String.eqb_eq. reflexivity.
Qed.

Lemma NoDup_constant {T} (c : T) (l : list T) :
  NoDup l -> (forall x, In x l -> x = c) -> (List.length l <= 1)%nat.
Proof.
  intros Hnd Hall. destruct l as [| x [| y l]]; simpl; try lia.
  exfalso. apply NoDup_cons_iff in Hnd. destruct Hnd as [Hx _].
  apply Hx. rewrite (Hall x), <- (Hall y); simpl; auto.
Qed.

Lemma truthy_nonempty (c : string) : c <> "" -> truthy (Some c) = true.
Proof.
  intro H. simpl. apply negb_true_iff. apply String.eqb_neq. exact H.
Qed.

(** With a non-empty category, [summarize] on the reference table returns
    at most one entry.  The entry is there exactly when some record in range
    has that category; it carries the category asked for, and its count and
    total are those of the records in range of that category.  The table is
    left as it is. *)
Theorem summarize_category_gives_one_entry
        (d : Store.db) (start_date end_date c : string) (Hc : c <> "") :
  exists summary_list : list entry,
    run Store.execute (summarize start_date end_date (Some c)) d
    = (inr (SummarySequence summary_list), d)
    /\ (List.length summary_list <= 1)%nat
    /\ (summary_list = []
        <-> of_category c (in_range_rows d start_date end_date) = [])
    /\ (forall en, In en summary_list ->
          category en = c
          /\ count en
             = Z.of_nat (List.length
                           (of_category c (in_range_rows d start_date end_date)))
          /\ total_amount en
             = sum_amounts (of_category c (in_range_rows d start_date end_date))).
Proof.
  set (arrived := in_range_rows d start_date end_date).
  assert (Hsel : selected d start_date end_date (Some c) = of_category c arrived).
  { unfold selected. rewrite (truthy_nonempty c Hc). reflexivity. }
  destruct (summary_of_records (of_category c arrived))
    as [Hperm [Hcats [Hnd [Hkeys Hent]]]].
  eexists. split; [rewrite run_summarize_any, Hsel; reflexivity |].
  set (summary := fold_left tally (of_category c arrived) []) in *.
  set (summary_list := PySorted.sorted num_ltb total_amount true (values summary))
    in *.
  assert (Hall : forall k, In k (keys summary) -> k = c).
  { intros k Hk. apply Hkeys in Hk. destruct Hk as [e [He <-]].
    apply of_category_In in He. apply He. }
  split; [| split].
  - rewrite <- (Permutation_length Hperm).
    rewrite <- (length_map category), Hcats.
    apply (NoDup_constant c); assumption.
  - split.
    + intro Hnil. destruct (of_category c arrived) as [| e l] eqn:Hl;
        [reflexivity | exfalso].
      assert (Hk : In (Store.e_category e) (keys summary)).
      { apply Hkeys. exists e. split; [left |]; reflexivity. }
      rewrite <- Hcats in Hk.
      apply (Permutation_in _ (Permutation_map category Hperm)) in Hk.
      rewrite Hnil in Hk. exact Hk.
    + intro Hnil. unfold summary_list, summary. rewrite Hnil. reflexivity.
  - intros en Hen. destruct (Hent en Hen) as [Hcnt Htot].
    assert (Hcat : category en = c).
    { apply Hall. rewrite <- Hcats.
      apply (Permutation_in _ (Permutation_sym (Permutation_map category Hperm))).
      apply in_map. exact Hen. }
    rewrite Hcat, of_category_idem in Hcnt, Htot.
    split; [exact Hcat |]. split; assumption.
Qed.

(** ** Every record in range is counted once *)

Lemma total_count_app (l l' : list entry) :
  total_count (l ++ l') = total_count l + total_count l'.
Proof.
  induction l as [| en l IH]; simpl; [reflexivity |]. rewrite IH. lia.
Qed.

Lemma total_count_perm (l l' : list entry) :
  Permutation l l' -> total_count l = total_count l'.
Proof.
  induction 1 as [| x l l' _ IH | x y l | l l' l'' _ IH1 _ IH2]; simpl; lia.
Qed.

Lemma total_count_accumulate (cat : string) (amount : num) (summary : summary_dict) :
  contains cat summary = true ->
  total_count (values (accumulate cat amount summary))
  = total_count (values summary) + 1.
Proof.
  induction summary as [| [k v] rest IH]; simpl; [discriminate |].
  destruct (String.eqb k cat); simpl.
  - intros _. lia.
  - intro H. unfold contains in IH. rewrite (IH H). lia.
Qed.

Lemma total_count_tally (summary : summary_dict) (e : Store.expense) :
  total_count (values (tally summary e)) = total_count (values summary) + 1.
Proof.
  unfold tally, ensure.
  destruct (contains (Store.e_category e) summary) eqn:Hc; simpl.
  - apply total_count_accumulate. exact Hc.
  - rewrite total_count_accumulate.
    + unfold setitem_new, values. rewrite map_app, total_count_app. simpl. lia.
    + unfold contains, setitem_new. rewrite existsb_app. simpl.
      rewrite String.eqb_refl. apply orb_true_iff. right. reflexivity.
Qed.

Lemma total_count_fold (l : list Store.expense) (summary : summary_dict) :
  total_count (values (fold_left tally l summary))
  = total_count (values summary) + Z.of_nat (List.length l).
Proof.
  revert summary. induction l as [| e l IH]; intro summary.
  - simpl. lia.
  - simpl fold_left. rewrite IH, total_count_tally.
    cbn [List.length]. rewrite Nat2Z.inj_succ. lia.
Qed.

(** On the reference table the counts of a summary add up to the number
    of records [summarize] selected: every record in range (of the category
    asked for, if one is) is counted exactly once. *)
Theorem summarize_counts_every_record_once
        (d : Store.db) (start_date end_date : string) (category : option string) :
  exists summary_list : list entry,
    run Store.execute (summarize start_date end_date category) d
    = (inr (SummarySequence summary_list), d)
    /\ total_count summary_list
       = Z.of_nat (List.length (selected d start_date end_date category)).
Proof.
  eexists. split; [apply run_summarize_any |].
  rewrite <- (total_count_perm _ _ (sorted_perm num_ltb total_amount true _)).
  rewrite total_count_fold. reflexivity.
Qed.

End SummaryShape.

(** ** Ties in a summary *)

Section StableSort.
Context {X K : Type} (ltb : K -> K -> bool) (key : X -> K) (p : X -> bool).

Lemma filter_swap (x y : X) (l : list X) :
  (p x = true -> p y = false) ->
  filter p (y :: x :: l) = filter p (x :: y :: l).
Proof.
  intro H. simpl. destruct (p x); [rewrite (H eq_refl) |]; reflexivity.
Qed.

Lemma sorted_insert_filter (x : X) (l : list X) :
  (forall y, In y l -> p x = true -> ltb (key x) (key y) = true -> p y = false) ->
  filter p (PySorted.insert ltb key true x l) = filter p (x :: l).
Proof.
  induction l as [| y l IH]; intro H; [reflexivity |].
  cbn [PySorted.insert]. unfold PySorted.must_follow.
  destruct (ltb (key x) (key y)) eqn:Hxy; [| reflexivity].
  transitivity (filter p (y :: x :: l)).
  - cbn [filter]. rewrite IH.
    + reflexivity.
    + intros z Hz. apply H. right. exact Hz.
  - apply filter_swap.
    intro Hx. apply (H y); [left; reflexivity | exact Hx | exact Hxy].
Qed.

Lemma sorted_filter (l : list X) :
  (forall x y, In x l -> In y l ->
               p x = true -> ltb (key x) (key y) = true -> p y = false) ->
  filter p (PySorted.sorted ltb key true l) = filter p l.
Proof.
  induction l as [| x l IH]; intro H; [reflexivity |].
  cbn [PySorted.sorted fold_right].
  fold (PySorted.sorted ltb key true l).
  rewrite sorted_insert_filter.
  - simpl. rewrite IH; [reflexivity |].
    intros a b Ha Hb. apply H; right; assumption.
  - intros y Hy. apply H; [left; reflexivity | right].
    eapply Permutation_in;
      [apply Permutation_sym, (sorted_perm ltb key true) | exact Hy].
Qed.

End StableSort.

Section Ties.
Context {A : Amount}.

Lemma contains_existsb (c : string) (summary : summary_dict) :
  contains c summary = existsb (String.eqb c) (keys summary).
Proof.
  induction summary as [| [k v] rest IH]; simpl; [reflexivity |].
  rewrite (String.eqb_sym k c). f_equal. exact IH.
Qed.

Lemma keys_tally (summary : summary_dict) (e : Store.expense) :
  keys (tally summary e)
  = if existsb (String.eqb (Store.e_category e)) (keys summary)
    then keys summary
    else (keys summary ++ [Store.e_category e])%list.
Proof.
  unfold tally, ensure. rewrite keys_accumulate, contains_existsb.
  destruct (existsb _ (keys summary)); simpl; [reflexivity |].
  unfold setitem_new, keys. rewrite map_app. reflexivity.
Qed.

Lemma keys_fold_tally (l : list Store.expense) (summary : summary_dict) :
  keys (fold_left tally l summary)
  = fold_left (fun acc c => if existsb (String.eqb c) acc then acc
                            else (acc ++ [c])%list)
              (map Store.e_category l) (keys summary).
Proof.
  revert summary. induction l as [| e l IH]; intro summary; simpl.
  - reflexivity.
  - rewrite IH, keys_tally. reflexivity.
Qed.

(** The entries of a summary come from the [summary] dict, whose keys are
    the categories in the order in which each first arrives.  [sorted] is
    stable, so on the reference table entries whose totals are tied stay in
    that order: for each entry, the entries tied with it appear in the
    summary as they do in arrival order.  (Ties are judged with [<], which is
    taken to be a strict weak order on the totals.) *)
Theorem summarize_ties_keep_arrival_order
        (d : Store.db) (start_date end_date : string) (chosen : option string) :
  exists arrival_order summary_list : list entry,
    run Store.execute (summarize start_date end_date chosen) d
    = (inr (SummarySequence summary_list), d)
    /\ map category arrival_order
       = first_seen
           (map Store.e_category (selected d start_date end_date chosen))
    /\ Permutation arrival_order summary_list
    /\ (PySorted.strict_weak_on num_ltb (map total_amount summary_list) ->
        forall en, In en summary_list ->
          filter (tied (total_amount en)) summary_list
          = filter (tied (total_amount en)) arrival_order).
Proof.
  set (l := selected d start_date end_date chosen).
  destruct (summary_of_records l) as [Hperm [Hcats _]].
  exists (values (fold_left tally l [])).
  eexists. split; [apply run_summarize_any |].
  split; [rewrite Hcats; apply keys_fold_tally |].
  split; [exact Hperm |].
  intros [_ Hneg] en Hen.
  apply sorted_filter. intros x y Hx Hy Htx Hxy.
  apply (Permutation_in _ Hperm) in Hx, Hy.
  unfold tied in *. apply andb_true_iff in Htx. destruct Htx as [H1 H2].
  apply negb_true_iff in H1, H2.
  destruct (num_ltb (total_amount en) (total_amount y)) eqn:Hty;
    [reflexivity | simpl].
  exfalso.
  assert (Hc : num_ltb (total_amount x) (total_amount y) = false).
  { apply (Hneg _ (total_amount en)); try (apply in_map; assumption); assumption. }
  congruence.
Qed.

End Ties.

(** ** Rows without the keys [summarize] reads *)

Section MissingKeys.
Context {A : Amount}.

Lemma summarize_loop_missing_key
      (good : list Store.row) (bad : Store.row) (rest : list Store.row)
      (summary : summary_dict) :
  forallb has_keys good = true ->
  has_keys bad = false ->
  summarize_loop (good ++ bad :: rest) summary
  = raise (Py.mk_exn Py.KeyError (Py.repr (missing_key bad))).
Proof.
  intros Hgood Hbad. revert summary.
  induction good as [| r good IH]; intro summary.
  - simpl. unfold summarize_step, getitem, has_keys, missing_key in *.
    destruct (Store.r_category bad); [| reflexivity].
    destruct (Store.r_amount bad); [discriminate | reflexivity].
  - simpl in Hgood. apply andb_true_iff in Hgood. destruct Hgood as [Hr Hgood].
    simpl. unfold summarize_step, getitem, has_keys in *.
    destruct (Store.r_category r); [| discriminate].
    destruct (Store.r_amount r); [| discriminate].
    simpl. apply IH. exact Hgood.
Qed.

(** If the store answers the query of [summarize] with rows one of which
    lacks ["category"] or ["amount"], the call returns an error envelope that
    names the key missing from the first such row ([category] is read before
    [amount]); what was aggregated up to that row is dropped. *)
Theorem summarize_reports_missing_key
        (S : Type) (handle : Store.query -> S -> Store.reply * S) (s s' : S)
        (start_date end_date : string) (chosen : option string)
        (good : list Store.row) (bad : Store.row) (rest : list Store.row)
        (Hreply : handle (summarize_query start_date end_date chosen) s
                  = (inr (good ++ bad :: rest)%list, s'))
        (Hgood : forallb has_keys good = true)
        (Hbad : has_keys bad = false) :
  run handle (summarize start_date end_date chosen) s
  = (inr (error_envelope
            ("Error summarizing expenses_test: '" ++ missing_key bad ++ "'")),
     s').
Proof.
  unfold summarize. rewrite run_try_except, run_bind, run_execute.
  fold (range_query start_date end_date).
  fold (summarize_query start_date end_date chosen).
  rewrite Hreply, run_bind.
  rewrite (summarize_loop_missing_key good bad rest [] Hgood Hbad).
  unfold missing_key. destruct (Store.r_category bad); reflexivity.
Qed.

End MissingKeys.

(** ** ORDER BY and WHERE commute *)

Section OrderByFilter.
Context {A : Amount}.
Variable os : list (Store.column * bool).
Variable p : Store.expense -> bool.

Let le (a b : Store.expense) : Prop := Store.order_compare os a b <> Gt.

Hypothesis le_trans : forall a b c, le a b -> le b c -> le a c.

Lemma insert_sorted_front (x : Store.expense) (l : list Store.expense) :
  Forall (le x) l -> Store.insert_sorted os x l = x :: l.
Proof.
  intro H. destruct l as [| y l]; [reflexivity |].
  apply Forall_inv in H. unfold le in H. simpl.
  destruct (Store.order_compare os x y); try reflexivity.
  exfalso. apply H. reflexivity.
Qed.

Lemma filter_insert_sorted (x : Store.expense) (l : list Store.expense) :
  StronglySorted le l ->
  filter p (Store.insert_sorted os x l)
  = if p x then Store.insert_sorted os x (filter p l) else filter p l.
Proof.
  induction l as [| y l IH]; intro Hl.
  - simpl. destruct (p x); reflexivity.
  - apply StronglySorted_inv in Hl. destruct Hl as [Hl Hy].
    cbn [Store.insert_sorted].
    destruct (Store.order_compare os x y) eqn:Hxy.
    + cbn [filter]. destruct (p x); [| reflexivity].
      symmetry. apply insert_sorted_front.
      assert (Hall : Forall (le x) (y :: l)).
      { constructor; [unfold le; rewrite Hxy; discriminate |].
        eapply Forall_impl; [| exact Hy]. intros z Hz.
        apply (le_trans x y z); [unfold le; rewrite Hxy; discriminate | exact Hz]. }
      rewrite Forall_forall in Hall |- *. intros z Hz.
      apply Hall. change (In z (filter p (y :: l))) in Hz.
      apply filter_In in Hz. apply Hz.
    + cbn [filter]. destruct (p x); [| reflexivity].
      symmetry. apply insert_sorted_front.
      assert (Hall : Forall (le x) (y :: l)).
      { constructor; [unfold le; rewrite Hxy; discriminate |].
        eapply Forall_impl; [| exact Hy]. intros z Hz.
        apply (le_trans x y z); [unfold le; rewrite Hxy; discriminate | exact Hz]. }
      rewrite Forall_forall in Hall |- *. intros z Hz.
      apply Hall. change (In z (filter p (y :: l))) in Hz.
      apply filter_In in Hz. apply Hz.
    + cbn [filter]. rewrite (IH Hl).
      destruct (p x), (p y); try reflexivity.
      cbn [Store.insert_sorted]. rewrite Hxy. reflexivity.
Qed.

Hypothesis cmp_gt_flip :
  forall a b, Store.order_compare os a b = Gt -> le b a.

Lemma order_by_filter (l : list Store.expense) :
  Store.order_by os (filter p l) = filter p (Store.order_by os l).
Proof.
  induction l as [| x l IH]; [reflexivity |].
  cbn [filter Store.order_by fold_right].
  fold (Store.order_by os l).
  rewrite filter_insert_sorted by (apply order_by_sorted; assumption).
  destruct (p x); [| exact IH].
  cbn [Store.order_by fold_right]. fold (Store.order_by os (filter p l)).
  rewrite IH. reflexivity.
Qed.

End OrderByFilter.

(** ** Operations one after another, on the reference table *)

Section Composition.
Context {A : Amount}.

Lemma list_order_filter (p : Store.expense -> bool) (l : list Store.expense) :
  Store.order_by list_order (filter p l) = filter p (Store.order_by list_order l).
Proof.
  apply order_by_filter.
  - intros a b c Hab Hbc. apply date_id_desc_compare.
    eapply date_id_desc_trans; apply date_id_desc_compare; eassumption.
  - intros a b H. apply date_id_desc_compare, date_id_desc_flip, H.
Qed.

Lemma filter_comm {T} (f g : T -> bool) (l : list T) :
  filter f (filter g l) = filter g (filter f l).
Proof.
  rewrite !filter_filter. apply filter_ext. intro x. apply andb_comm.
Qed.

Lemma run_delete_expense (d : Store.db) (expense_id : Z) :
  run Store.execute (delete_expense expense_id) d
  = (inr (Envelope "success"
                   ("Expense " ++ Py.str_int expense_id ++ " deleted successfully")
                   no_payload), after_delete d expense_id).
Proof.
  unfold delete_expense. rewrite run_try_except, run_bind, run_execute.
  fold (delete_query expense_id). rewrite execute_delete_query. reflexivity.
Qed.

Lemma run_update_expense (d : Store.db) (expense_id : Z) (date : option string)
      (amount : option num) (category subcategory note : option string) :
  (forall s, date = Some s -> exists ymd, Py.strptime s = inr ymd) ->
  Store.is_empty (update_fields date amount category subcategory note) = false ->
  run Store.execute
      (update_expense expense_id date amount category subcategory note) d
  = (inr (Envelope "success"
            ("Expense " ++ Py.str_int expense_id ++ " updated successfully")
            (updated
               (map Store.representation
                  (map (Store.patch
                          (update_fields date amount category subcategory note))
                       (filter (fun e => Store.e_id e =? expense_id)
                               (Store.rows d)))))),
     after_update d expense_id
                  (update_fields date amount category subcategory note)).
Proof.
  intros Hdate Hsome.
  rewrite (update_expense_program expense_id _ _ _ _ _ Hdate Hsome).
  rewrite run_try_except, run_bind, run_execute.
  rewrite execute_update_query by reflexivity. reflexivity.
Qed.

(** After [delete_expense], a listing is the listing from before without
    the rows of the deleted id; the rows that remain keep their order. *)
Theorem list_after_delete_drops_the_record
        (d : Store.db) (expense_id : Z) (start_date end_date : string) :
  exists (before : list Store.expense) (d' : Store.db),
    run Store.execute (list_expenses start_date end_date) d
    = (inr (Sequence (map listed before)), d)
    /\ snd (run Store.execute (delete_expense expense_id) d) = d'
    /\ run Store.execute (list_expenses start_date end_date) d'
       = (inr (Sequence
                 (map listed
                      (filter (fun e => negb (Store.e_id e =? expense_id)) before))),
          d').
Proof.
  exists (listing d start_date end_date), (after_delete d expense_id).
  split; [apply run_list_expenses |].
  split; [rewrite run_delete_expense; reflexivity |].
  rewrite run_list_expenses. do 3 f_equal.
  unfold listing, after_delete. simpl.
  rewrite filter_comm. f_equal. apply list_order_filter.
Qed.

Lemma filter_all {T} (f : T -> bool) (l : list T) :
  Forall (fun x => f x = true) l -> filter f l = l.
Proof.
  induction 1 as [| x l Hx _ IH]; simpl; [reflexivity |].
  rewrite Hx, IH. reflexivity.
Qed.

Lemma filter_none {T} (f : T -> bool) (l : list T) :
  Forall (fun x => f x = false) l -> filter f l = [].
Proof.
  induction 1 as [| x l Hx _ IH]; simpl; [reflexivity |].
  rewrite Hx, IH. reflexivity.
Qed.

Lemma other_ids (d : Store.db) (expense_id : Z) :
  ~ In expense_id (Store.ids (Store.rows d)) ->
  Forall (fun e => (Store.e_id e =? expense_id) = false) (Store.rows d).
Proof.
  intro Hnot. apply Forall_forall. intros e He.
  apply Z.eqb_neq. intros <-. apply Hnot. apply in_map. exact He.
Qed.

(** Adding an expense and then deleting the id the add returned gives back
    the rows the table had; only the sequence has moved on. *)
Theorem delete_undoes_add
        (d : Store.db) (date : string) (amount : num)
        (category subcategory note : string)
        (Hok : Store.db_ok d) (Hdate : parses date = true) :
  exists (new_id : Z) (stored : Store.row) (d1 d2 : Store.db),
    run Store.execute (add_expense date amount category subcategory note) d
    = (inr (Envelope "success" "Expense added successfully" (added new_id stored)),
       d1)
    /\ snd (run Store.execute (delete_expense new_id) d1) = d2
    /\ Store.rows d2 = Store.rows d
    /\ Store.next_id d2 = Store.next_id d + 1.
Proof.
  apply parses_inr in Hdate. destruct Hdate as [ymd Hdate].
  set (e := new_expense d date amount category subcategory note).
  exists (Store.next_id d), (Store.representation e), (after_add d e).
  eexists. split; [apply (run_add_expense d _ _ _ _ _ ymd Hok Hdate) |].
  split; [rewrite run_delete_expense; reflexivity |].
  split; [| reflexivity].
  simpl. rewrite filter_app. simpl. rewrite Z.eqb_refl. simpl.
  rewrite app_nil_r. apply filter_all.
  pose proof (other_ids d (Store.next_id d) (fresh_next_id d Hok)) as H.
  eapply Forall_impl; [| exact H]. intros x Hx. simpl in Hx. rewrite Hx.
  reflexivity.
Qed.

End Composition.

Section UpdateFacts.
Context {A : Amount}.

Lemma filter_id_find (l : list Store.expense) (expense_id : Z) :
  NoDup (Store.ids l) ->
  filter (fun e => Store.e_id e =? expense_id) l
  = match find (fun e => Store.e_id e =? expense_id) l with
    | Some e => [e]
    | None => []
    end.
Proof.
  induction l as [| x l IH]; intro Hnd; simpl; [reflexivity |].
  simpl in Hnd. apply NoDup_cons_iff in Hnd. destruct Hnd as [Hx Hnd].
  destruct (Z.eqb_spec (Store.e_id x) expense_id) as [Heq | Hne].
  - f_equal. apply filter_none. apply Forall_forall. intros y Hy.
    apply Z.eqb_neq. intro Hyid. apply Hx. rewrite Heq, <- Hyid.
    apply in_map. exact Hy.
  - apply IH. exact Hnd.
Qed.

Lemma map_unchanged {T} (f : T -> T) (l : list T) :
  Forall (fun x => f x = x) l -> map f l = l.
Proof.
  induction 1 as [| x l Hx _ IH]; simpl; [reflexivity |].
  rewrite Hx, IH. reflexivity.
Qed.

(** On a table with unique ids, [update_expense] with accepted arguments
    returns, as [data], the one record that has the id, as it is after the
    update; when no record has the id it still reports success, with empty
    [data], and the table is exactly as before. *)
Theorem update_expense_returns_the_updated_record
        (d : Store.db) (expense_id : Z) (date : option string)
        (amount : option num) (category subcategory note : option string)
        (Hok : Store.db_ok d)
        (Hdate : forall s, date = Some s -> exists ymd, Py.strptime s = inr ymd)
        (Hsome : Store.is_empty
                   (update_fields date amount category subcategory note) = false) :
  exists d' : Store.db,
    run Store.execute
        (update_expense expense_id date amount category subcategory note) d
    = (inr (Envelope "success"
              ("Expense " ++ Py.str_int expense_id ++ " updated successfully")
              (updated
                 match find (fun e => Store.e_id e =? expense_id) (Store.rows d) with
                 | Some e =>
                     [Store.representation
                        (Store.patch
                           (update_fields date amount category subcategory note) e)]
                 | None => []
                 end)), d')
    /\ (~ In expense_id (Store.ids (Store.rows d)) -> d' = d).
Proof.
  eexists. split.
  - rewrite (run_update_expense d expense_id _ _ _ _ _ Hdate Hsome).
    rewrite (filter_id_find _ _ (proj1 Hok)).
    destruct (find _ (Store.rows d)); reflexivity.
  - intro Hnot. unfold after_update. destruct d as [rows next clock]. simpl in *.
    f_equal. apply map_unchanged.
    pose proof (other_ids (Store.mk_db rows next clock) expense_id Hnot) as H.
    eapply Forall_impl; [| exact H]. intros e He. simpl in He. rewrite He.
    reflexivity.
Qed.

Lemma patch_idem (data : Store.row) (e : Store.expense) :
  Store.patch data (Store.patch data e) = Store.patch data e.
Proof.
  unfold Store.patch. simpl.
  destruct (Store.r_id data), (Store.r_date data), (Store.r_amount data),
    (Store.r_category data), (Store.r_subcategory data), (Store.r_note data),
    (Store.r_created_at data); reflexivity.
Qed.

Lemma patch_keeps_id (data : Store.row) (e : Store.expense) :
  Store.r_id data = None -> Store.e_id (Store.patch data e) = Store.e_id e.
Proof. intro H. unfold Store.patch. simpl. rewrite H. reflexivity. Qed.

Lemma after_update_rows_ids (d : Store.db) (expense_id : Z) (data : Store.row) :
  Store.r_id data = None ->
  Store.ids (Store.rows (after_update d expense_id data)) = Store.ids (Store.rows d).
Proof.
  intro H. unfold after_update, Store.ids. simpl. rewrite map_map.
  apply map_ext. intro e.
  destruct (Store.e_id e =? expense_id); [apply patch_keeps_id; exact H |].
  reflexivity.
Qed.

Lemma after_update_idem (d : Store.db) (expense_id : Z) (data : Store.row) :
  Store.r_id data = None ->
  after_update (after_update d expense_id data) expense_id data
  = after_update d expense_id data.
Proof.
  intro H. unfold after_update. simpl. f_equal. rewrite map_map.
  apply map_ext. intro e.
  destruct (Store.e_id e =? expense_id) eqn:He.
  - rewrite (patch_keeps_id data e H), He. apply patch_idem.
  - rewrite He. reflexivity.
Qed.

Lemma filter_map_invariant {T} (f : T -> T) (g : T -> bool) (l : list T) :
  (forall x, g (f x) = g x) -> filter g (map f l) = map f (filter g l).
Proof.
  intro H. induction l as [| x l IH]; simpl; [reflexivity |].
  rewrite H. destruct (g x); simpl; rewrite IH; reflexivity.
Qed.

(** Repeating an [update_expense] call changes nothing more: run again on
    the table the first run left, it returns the same envelope and leaves
    that table as it is. *)
Theorem update_expense_twice_is_once
        (d : Store.db) (expense_id : Z) (date : option string)
        (amount : option num) (category subcategory note : option string)
        (Hdate : forall s, date = Some s -> exists ymd, Py.strptime s = inr ymd)
        (Hsome : Store.is_empty
                   (update_fields date amount category subcategory note) = false) :
  let call := update_expense expense_id date amount category subcategory note in
  let first := run Store.execute call d in
  run Store.execute call (snd first) = first.
Proof.
  intros call first. unfold first, call.
  rewrite (run_update_expense d expense_id _ _ _ _ _ Hdate Hsome). simpl snd.
  rewrite (run_update_expense _ expense_id _ _ _ _ _ Hdate Hsome).
  set (data := update_fields date amount category subcategory note).
  rewrite after_update_idem by reflexivity.
  do 5 f_equal. unfold after_update. cbn [Store.rows].
  rewrite (filter_map_invariant
             (fun e => if Store.e_id e =? expense_id then Store.patch data e else e)
             (fun e => Store.e_id e =? expense_id)).
  - rewrite map_map. apply map_ext_in. intros e He.
    apply filter_In in He. destruct He as [_ He]. rewrite He. apply patch_idem.
  - intro e. destruct (Store.e_id e =? expense_id) eqn:He; [| exact He].
    rewrite (patch_keeps_id data e eq_refl). exact He.
Qed.

End UpdateFacts.

(** ** The table's invariant *)

Section Invariant.
Context {A : Amount}.

Lemma NoDup_map_filter {T U} (f : T -> U) (g : T -> bool) (l : list T) :
  NoDup (map f l) -> NoDup (map f (filter g l)).
Proof.
  induction l as [| x l IH]; simpl; intro H; [constructor |].
  apply NoDup_cons_iff in H. destruct H as [Hx Hnd].
  destruct (g x); simpl; [| apply IH; exact Hnd].
  constructor; [| apply IH; exact Hnd].
  intro Hin. apply Hx. apply in_map_iff in Hin. destruct Hin as [y [Hy Hin]].
  apply filter_In in Hin. apply in_map_iff. exists y. split; [exact Hy | apply Hin].
Qed.

Lemma db_ok_after_delete (d : Store.db) (expense_id : Z) :
  Store.db_ok d -> Store.db_ok (after_delete d expense_id).
Proof.
  intros [Hnd Hlt]. unfold Store.db_ok, after_delete, Store.ids in *. simpl.
  split; [apply NoDup_map_filter; exact Hnd |].
  rewrite Forall_forall in Hlt |- *. intros i Hi. apply Hlt.
  apply in_map_iff in Hi. destruct Hi as [e [<- He]].
  apply filter_In in He. apply in_map. apply He.
Qed.

Lemma db_ok_after_update (d : Store.db) (expense_id : Z) (data : Store.row) :
  Store.r_id data = None ->
  Store.db_ok d -> Store.db_ok (after_update d expense_id data).
Proof.
  intros Hid Hok. unfold Store.db_ok.
  rewrite (after_update_rows_ids d expense_id data Hid). exact Hok.
Qed.

(** Unique ids, all below the sequence: if the table is so before a tool
    call it is so after it, whichever tool is called and with whatever
    arguments. *)
Theorem tool_calls_keep_ids_unique
        (d : Store.db) (c : tool_call) (Hok : Store.db_ok d) :
  Store.db_ok (snd (run Store.execute (invoke c) d)).
Proof.
  destruct c as [date amount category subcategory note
                | start_date end_date
                | start_date end_date chosen
                | expense_id
                | expense_id date amount category subcategory note];
    simpl invoke.
  - destruct (Py.strptime date) as [e | ymd] eqn:Hp.
    + pose proof (strptime_raises_ValueError _ _ Hp) as Hcls.
      unfold add_expense, try_except, lift. rewrite Hp. simpl.
      unfold Py.isinstance. rewrite Hcls. exact Hok.
    + rewrite (run_add_expense d _ _ _ _ _ ymd Hok Hp).
      apply db_ok_after_add. exact Hok.
  - rewrite run_list_expenses. exact Hok.
  - rewrite run_summarize_any. exact Hok.
  - rewrite run_delete_expense. apply db_ok_after_delete. exact Hok.
  - destruct (query_of (call_update_expense expense_id date amount category
                                            subcategory note)) as [q |] eqn:Hq.
    + apply update_expense_checked in Hq. destruct Hq as [_ [Hdate Hsome]].
      rewrite (run_update_expense d expense_id _ _ _ _ _ Hdate Hsome).
      apply db_ok_after_update; [reflexivity | exact Hok].
    + simpl in Hq. destruct date as [s |].
      * destruct (Py.strptime s) as [e | ymd] eqn:Hp.
        -- rewrite (update_expense_rejects_unparsable_date _ _ _ _ _ _ e Hp).
           exact Hok.
        -- unfold parses in Hq. rewrite Hp in Hq. discriminate Hq.
      * destruct amount, category, subcategory, note;
          try discriminate Hq; exact Hok.
Qed.

End Invariant.

(** ** A range whose bounds are the wrong way round *)

Section InvertedRange.
Context {A : Amount}.

Lemma string_leb_trans (a b c : string) :
  String.leb a b = true -> String.leb b c = true -> String.leb a c = true.
Proof.
  rewrite !string_leb_compare. intros Hab Hbc Hac.
  apply string_compare_gt_lt in Hac.
  destruct (String.compare a b) eqn:H1; [| | congruence].
  - apply String.compare_eq_iff in H1. subst b.
    apply Hbc. apply string_compare_gt_lt. exact Hac.
  - destruct (String.compare b c) eqn:H2; [| | congruence].
    + apply String.compare_eq_iff in H2. subst c.
      pose proof (string_compare_lt_trans _ _ _ H1 Hac) as H.
      rewrite string_compare_refl in H. discriminate.
    + pose proof (string_compare_lt_trans _ _ _ H1 H2) as H.
      pose proof (string_compare_lt_trans _ _ _ H Hac) as H'.
      rewrite string_compare_refl in H'. discriminate.
Qed.

(** When [end_date] sorts before [start_date] no date is in range:
    [list_expenses] returns the empty sequence and [summarize] the empty
    summary, whatever the table holds; neither is an error. *)
Theorem inverted_range_is_empty
        (d : Store.db) (start_date end_date : string) (chosen : option string)
        (Hinv : String.ltb end_date start_date = true) :
  run Store.execute (list_expenses start_date end_date) d = (inr (Sequence []), d)
  /\ run Store.execute (summarize start_date end_date chosen) d
     = (inr (SummarySequence []), d).
Proof.
  assert (Hnone : in_range_rows d start_date end_date = []).
  { unfold in_range_rows. apply filter_none. apply Forall_forall.
    intros e _. unfold in_rangeb.
    destruct (String.leb start_date (Store.e_date e)) eqn:H1; [| reflexivity].
    destruct (String.leb (Store.e_date e) end_date) eqn:H2; [| reflexivity].
    exfalso. pose proof (string_leb_trans _ _ _ H1 H2) as H.
    apply string_leb_compare in H. apply H. apply string_compare_gt_lt.
    apply string_ltb_compare. exact Hinv. }
  split.
  - rewrite run_list_expenses. unfold listing.
    fold (in_range_rows d start_date end_date). rewrite Hnone. reflexivity.
  - rewrite run_summarize_any.
    assert (Hsel : selected d start_date end_date chosen = []).
    { unfold selected. rewrite Hnone.
      destruct chosen as [c |]; [destruct (truthy (Some c)) |]; reflexivity. }
    rewrite Hsel. reflexivity.
Qed.

End InvertedRange.

(** ** Dates that reach the store *)

Section AcceptedDates.
Context {A : Amount}.







Lemma digit_cases (c : ascii) :
  Py.is_digit c = true ->
  In c ["0"; "1"; "2"; "3"; "4"; "5"; "6"; "7"; "8"; "9"]%char.
Proof.
  destruct c as [[] [] [] [] [] [] [] []]; intro H;
    try (vm_compute in H; discriminate H);
    simpl; repeat (first [left; reflexivity | right]).
Qed.

Ltac eval_literals_in H :=
  repeat match type of H with
         | context [Py.is_digit (Ascii ?a ?b ?c ?d ?e ?f ?g ?h)] =>
             let v := eval vm_compute in (Py.is_digit (Ascii a b c d e f g h)) in
             change (Py.is_digit (Ascii a b c d e f g h)) with v in H
         | context [nat_of_ascii (Ascii ?a ?b ?c ?d ?e ?f ?g ?h)] =>
             let v := eval vm_compute in (nat_of_ascii (Ascii a b c d e f g h)) in
             change (nat_of_ascii (Ascii a b c d e f g h)) with v in H
         end; cbv beta iota in H.

Ltac eval_literals :=
  repeat match goal with
         | |- context [Py.is_digit (Ascii ?a ?b ?c ?d ?e ?f ?g ?h)] =>
             let v := eval vm_compute in (Py.is_digit (Ascii a b c d e f g h)) in
             change (Py.is_digit (Ascii a b c d e f g h)) with v
         | |- context [Py.in_range ?lo ?hi (Ascii ?a ?b ?c ?d ?e ?f ?g ?h)] =>
             let v := eval vm_compute in
                        (Py.in_range lo hi (Ascii a b c d e f g h)) in
             change (Py.in_range lo hi (Ascii a b c d e f g h)) with v
         | |- context [nat_of_ascii (Ascii ?a ?b ?c ?d ?e ?f ?g ?h)] =>
             let v := eval vm_compute in (nat_of_ascii (Ascii a b c d e f g h)) in
             change (nat_of_ascii (Ascii a b c d e f g h)) with v
         end; cbv beta iota.

Ltac enum c D Hreal :=
  let E := fresh "E" in
  pose proof (digit_cases c D) as E; simpl in E;
  repeat (destruct E as [E | E]; [subst c | ]); [.. | contradiction E];
  eval_literals_in Hreal; try (exfalso; lia).

Lemma days_in_month_bounds (y m : Z) : 28 <= Py.days_in_month y m <= 31.
Proof.
  unfold Py.days_in_month.
  destruct (m =? 2); [destruct (Py.is_leap y); lia |].
  destruct (_ || _); lia.
Qed.

Ltac run_regex :=
  repeat (cbn [Py.re_match Py.ch Py.rng Py.one_char Ascii.eqb Bool.eqb andb];
          eval_literals).

Lemma strict_real_dates_parse (s : string) :
  strict_iso s = true -> real_date (ymd s) -> Py.strptime s = inr (ymd s).
Proof.
  intros Hs Hreal.
  destruct (strict_iso_shape s Hs)
    as (y1 & y2 & y3 & y4 & m1 & m2 & d1 & d2 & -> & F).
  rewrite Forall_forall in F.
  assert (Dy1 : Py.is_digit y1 = true) by (apply F; simpl; auto 10).
  assert (Dy2 : Py.is_digit y2 = true) by (apply F; simpl; auto 10).
  assert (Dy3 : Py.is_digit y3 = true) by (apply F; simpl; auto 10).
  assert (Dy4 : Py.is_digit y4 = true) by (apply F; simpl; auto 10).
  assert (Dm1 : Py.is_digit m1 = true) by (apply F; simpl; auto 10).
  assert (Dm2 : Py.is_digit m2 = true) by (apply F; simpl; auto 10).
  assert (Dd1 : Py.is_digit d1 = true) by (apply F; simpl; auto 10).
  assert (Dd2 : Py.is_digit d2 = true) by (apply F; simpl; auto 10).
  clear Hs F.
  unfold real_date, ymd, Py.int_of in *.
  cbn [substring Py.int_digits] in *.
  rewrite ?Dy1, ?Dy2, ?Dy3, ?Dy4, ?Dm1, ?Dm2, ?Dd1, ?Dd2 in Hreal |- *.
  pose proof (is_digit_bounds _ Dm1) as Bm1.
  pose proof (is_digit_bounds _ Dm2) as Bm2.
  pose proof (is_digit_bounds _ Dd1) as Bd1.
  pose proof (is_digit_bounds _ Dd2) as Bd2.
  pose proof (is_digit_bounds _ Dy1) as By1.
  pose proof (is_digit_bounds _ Dy2) as By2.
  pose proof (is_digit_bounds _ Dy3) as By3.
  pose proof (is_digit_bounds _ Dy4) as By4.
  unfold digit_value in *.
  cbv beta iota zeta in Hreal.
  match type of Hreal with
  | _ /\ _ /\ _ <= _ <= Py.days_in_month ?y ?m =>
      pose proof (days_in_month_bounds y m) as Bdim
  end.
  enum m1 Dm1 Hreal.
  all: enum m2 Dm2 Hreal.
  all: eval_literals_in Bdim.
  all: enum d1 Dd1 Hreal.
  all: enum d2 Dd2 Hreal.
  all: clear Dm1 Dm2 Dd1 Dd2 Bm1 Bm2 Bd1 Bd2.
  all: unfold Py.strptime, Py.re_match_prefix, Py.format_regex,
        Py.re_Y, Py.re_m, Py.re_d;
       cbn [Py.re_match Py.ch Py.rng Py.one_char];
       rewrite Dy1, Dy2, Dy3, Dy4.
  all: run_regex.
  all: cbn [negb String.eqb app Py.lookup Ascii.eqb Bool.eqb andb Py.consumed
            String.length Nat.sub substring Py.int_of Py.int_digits].
  all: rewrite Dy1, Dy2, Dy3, Dy4.
  all: eval_literals.
  all: match goal with
       | |- (if ?y <? 1 then _ else _) = _ =>
           destruct (Z.ltb_spec y 1); [exfalso; lia |]
       end.
  all: match goal with
       | |- (if ?a <? ?b then _ else _) = _ =>
           destruct (Z.ltb_spec a b); [exfalso; lia |]
       end.
  all: reflexivity.
Qed.


Lemma calls_add_expense_parsed
      (S : Type) (handle : Store.query -> S -> Store.reply * S) (s : S)
      (date : string) (amount : num) (category subcategory note : string)
      (ymd : Z * Z * Z) :
  Py.strptime date = inr ymd ->
  calls handle (add_expense date amount category subcategory note) s
  = [insert_query date amount category subcategory note].
Proof.
  intro Hp. unfold add_expense, lift, try_except. rewrite Hp.
  apply calls_execute_once.
  - intros [| first rest]; [eexists; reflexivity |].
    unfold getitem. destruct (Store.r_id first); eexists; reflexivity.
  - intros [[[] m] | r]; eexists; reflexivity.
Qed.

(** A date written in the strict form [YYYY-MM-DD] that denotes a day of
    the calendar always passes the check: [strptime] returns its year, month
    and day, and [add_expense] sends the insert with the date as given. *)
Theorem strict_real_date_is_accepted
        (S : Type) (handle : Store.query -> S -> Store.reply * S) (s : S)
        (date : string) (amount : num) (category subcategory note : string)
        (Hstrict : strict_iso date = true)
        (Hreal : real_date (ymd date)) :
  Py.strptime date = inr (ymd date)
  /\ calls handle (add_expense date amount category subcategory note) s
     = [insert_query date amount category subcategory note].
Proof.
  pose proof (strict_real_dates_parse date Hstrict Hreal) as Hp.
  split; [exact Hp |].
  apply (calls_add_expense_parsed S handle s _ _ _ _ _ (ymd date) Hp).
Qed.

(** On dates in strict form a listing is by the calendar: a stored record
    whose date is in strict form is shown by [list_expenses], between two
    bounds in strict form, exactly when its day lies between the days of the
    bounds. *)
Theorem list_expenses_follows_the_calendar
        (d : Store.db) (start_date end_date : string) (e : Store.expense)
        (Hstart : strict_iso start_date = true)
        (Hend : strict_iso end_date = true)
        (He : strict_iso (Store.e_date e) = true)
        (Hstored : In e (Store.rows d)) :
  exists records : list Store.expense,
    run Store.execute (list_expenses start_date end_date) d
    = (inr (Sequence (map listed records)), d)
    /\ (In e records
        <-> ymd_le (ymd start_date) (ymd (Store.e_date e))
            /\ ymd_le (ymd (Store.e_date e)) (ymd end_date)).
Proof.
  exists (listing d start_date end_date).
  split; [apply run_list_expenses |].
  rewrite listing_In, (in_range_strict _ _ _ Hstart Hend He).
  split; [intros [_ H]; exact H | intro H; split; assumption].
Qed.

End AcceptedDates.

(** ** The further properties on concrete ledgers *)

Lemma store_failure_becomes_error_envelope_witness :
  run (failing_store (A := float_amount)
                     (Py.mk_exn Py.ValueError "Expecting value"))
      (invoke (call_add_expense (A := float_amount)
                                "2024-01-09" 8.75%float "Groceries" "" "milk"))
      tt
  = (inr (error_envelope
            "Invalid date format. Use YYYY-MM-DD: Expecting value"), tt).
Proof.
  apply (store_failure_becomes_error_envelope
           (A := float_amount) unit
           (failing_store (Py.mk_exn Py.ValueError "Expecting value")) tt tt
           (call_add_expense (A := float_amount)
                             "2024-01-09" 8.75%float "Groceries" "" "milk")
           (insert_query (A := float_amount)
                         "2024-01-09" 8.75%float "Groceries" "" "milk")
           (Py.mk_exn Py.ValueError "Expecting value")).
  - reflexivity.
  - reflexivity.
Defined.

Lemma add_expense_reads_first_returned_row_witness :
  run (answering_store (A := float_amount) [])
      (add_expense (A := float_amount) "2024-01-09" 8.75%float "Groceries" "" "milk")
      tt
  = (inr (error_envelope "Failed to add expense"), tt).
Proof.
  apply (add_expense_reads_first_returned_row
           (A := float_amount) unit (answering_store []) tt tt
           "2024-01-09" 8.75%float "Groceries" "" "milk" []).
  - reflexivity.
  - reflexivity.
Defined.

Lemma summarize_category_gives_one_entry_witness :
  exists summary_list : list (entry (A := float_amount)),
    run Store.execute
        (summarize "2024-01-01" "2024-01-31" (Some "Food & Dining")) sample_ledger
    = (inr (SummarySequence summary_list), sample_ledger)
    /\ (List.length summary_list <= 1)%nat
    /\ (summary_list = []
        <-> of_category "Food & Dining"
                        (in_range_rows sample_ledger "2024-01-01" "2024-01-31") = [])
    /\ (forall en, In en summary_list ->
          category en = "Food & Dining"
          /\ count en
             = Z.of_nat (List.length
                           (of_category "Food & Dining"
                              (in_range_rows sample_ledger "2024-01-01" "2024-01-31")))
          /\ total_amount en
             = sum_amounts
                 (of_category "Food & Dining"
                    (in_range_rows sample_ledger "2024-01-01" "2024-01-31"))).
Proof.
  apply (summarize_category_gives_one_entry
           sample_ledger "2024-01-01" "2024-01-31" "Food & Dining").
  discriminate.
Defined.

Example tied_summary :
  fst (run Store.execute (summarize "2024-03-01" "2024-03-31" None) tied_ledger)
  = inr (SummarySequence
           [mk_entry (A := float_amount) "Food & Dining" 15%float 2;
            mk_entry (A := float_amount) "Housing" 15%float 1;
            mk_entry (A := float_amount) "Travel" 10%float 1]).
Proof. vm_compute. reflexivity. Qed.

Lemma summarize_ties_keep_arrival_order_witness :
  exists arrival_order summary_list : list (entry (A := float_amount)),
    run Store.execute (summarize "2024-03-01" "2024-03-31" None) tied_ledger
    = (inr (SummarySequence summary_list), tied_ledger)
    /\ map category arrival_order
       = first_seen
           (map Store.e_category
                (selected tied_ledger "2024-03-01" "2024-03-31" None))
    /\ Permutation arrival_order summary_list
    /\ (forall en, In en summary_list ->
          filter (tied (total_amount en)) summary_list
          = filter (tied (total_amount en)) arrival_order).
Proof.
  destruct (summarize_ties_keep_arrival_order
              tied_ledger "2024-03-01" "2024-03-31" None)
    as (arrival_order & summary_list & Hrun & Hfirst & Hperm & Hties).
  exists arrival_order, summary_list.
  repeat (split; [assumption |]).
  apply Hties.
  assert (Hl : summary_list
               = [mk_entry (A := float_amount) "Food & Dining" 15%float 2;
                  mk_entry (A := float_amount) "Housing" 15%float 1;
                  mk_entry (A := float_amount) "Travel" 10%float 1]).
  { vm_compute in Hrun. injection Hrun as <-. reflexivity. }
  rewrite Hl. split.
  - intros a b Ha Hb. simpl in Ha, Hb.
    destruct Ha as [<- | [<- | [<- | []]]]; destruct Hb as [<- | [<- | [<- | []]]];
      vm_compute; congruence.
  - intros a b c Ha Hb Hc. simpl in Ha, Hb, Hc.
    destruct Ha as [<- | [<- | [<- | []]]]; destruct Hb as [<- | [<- | [<- | []]]];
      destruct Hc as [<- | [<- | [<- | []]]]; vm_compute; congruence.
Defined.

Lemma summarize_reports_missing_key_witness :
  run (answering_store (A := float_amount)
         [Store.mk_row (A := float_amount) None None (Some 12.5%float)
                       (Some "Food & Dining") None None None;
          Store.mk_row (A := float_amount) None None None
                       (Some "Travel") None None None])
      (summarize "2024-01-01" "2024-01-31" None) tt
  = (inr (error_envelope "Error summarizing expenses_test: 'amount'"), tt).
Proof.
  apply (summarize_reports_missing_key
           (A := float_amount) unit
           (answering_store
              [Store.mk_row (A := float_amount) None None (Some 12.5%float)
                            (Some "Food & Dining") None None None;
               Store.mk_row (A := float_amount) None None None
                            (Some "Travel") None None None])
           tt tt "2024-01-01" "2024-01-31" None
           [Store.mk_row (A := float_amount) None None (Some 12.5%float)
                         (Some "Food & Dining") None None None]
           (Store.mk_row (A := float_amount) None None None
                         (Some "Travel") None None None)
           []).
  - reflexivity.
  - reflexivity.
  - reflexivity.
Defined.

Lemma delete_undoes_add_witness :
  exists (new_id : Z) (stored : Store.row) (d1 d2 : Store.db),
    run Store.execute
        (add_expense (A := float_amount) "2024-01-09" 8.75%float "Groceries" "" "milk")
        sample_ledger
    = (inr (Envelope "success" "Expense added successfully" (added new_id stored)),
       d1)
    /\ snd (run Store.execute (delete_expense new_id) d1) = d2
    /\ Store.rows d2 = Store.rows sample_ledger
    /\ Store.next_id d2 = Store.next_id sample_ledger + 1.
Proof.
  apply (delete_undoes_add sample_ledger "2024-01-09" 8.75%float "Groceries" "" "milk").
  - exact sample_ledger_ok.
  - reflexivity.
Defined.

Lemma update_expense_returns_the_updated_record_witness :
  exists d' : Store.db,
    run Store.execute
        (update_expense (A := float_amount) 99 None (Some 42.5%float) None None None)
        sample_ledger
    = (inr (Envelope "success" "Expense 99 updated successfully" (updated [])), d')
    /\ (~ In 99 (Store.ids (Store.rows sample_ledger)) -> d' = sample_ledger).
Proof.
  apply (update_expense_returns_the_updated_record
           sample_ledger 99 None (Some 42.5%float) None None None).
  - exact sample_ledger_ok.
  - intros s H. discriminate H.
  - reflexivity.
Defined.

Lemma update_expense_twice_is_once_witness :
  let call := update_expense (A := float_amount) 2 (Some "2024-01-08")
                             (Some 42.5%float) None None (Some "") in
  let first := run Store.execute call sample_ledger in
  run Store.execute call (snd first) = first.
Proof.
  apply (update_expense_twice_is_once
           sample_ledger 2 (Some "2024-01-08") (Some 42.5%float) None None (Some "")).
  - intros s H. injection H as <-. exists (2024, 1, 8). reflexivity.
  - reflexivity.
Defined.

Lemma tool_calls_keep_ids_unique_witness :
  Store.db_ok
    (snd (run Store.execute
              (invoke (call_delete_expense (A := float_amount) 2)) sample_ledger)).
Proof.
  apply (tool_calls_keep_ids_unique sample_ledger (call_delete_expense 2)).
  exact sample_ledger_ok.
Defined.

Lemma inverted_range_is_empty_witness :
  run Store.execute (list_expenses "2024-12-31" "2024-01-01") sample_ledger
  = (inr (Sequence []), sample_ledger)
  /\ run Store.execute (summarize "2024-12-31" "2024-01-01" None) sample_ledger
     = (inr (SummarySequence []), sample_ledger).
Proof.
  apply (inverted_range_is_empty sample_ledger "2024-12-31" "2024-01-01" None).
  reflexivity.
Defined.


Lemma strict_real_date_is_accepted_witness :
  Py.strptime "2024-02-29" = inr (ymd "2024-02-29")
  /\ calls Store.execute
           (add_expense (A := float_amount) "2024-02-29" 8.75%float
                        "Groceries" "" "milk") sample_ledger
     = [insert_query (A := float_amount) "2024-02-29" 8.75%float
                     "Groceries" "" "milk"].
Proof.
  apply (strict_real_date_is_accepted
           (A := float_amount) _ Store.execute sample_ledger
           "2024-02-29" 8.75%float "Groceries" "" "milk").
  - reflexivity.
  - unfold real_date, ymd. vm_compute. repeat split; discriminate.
Defined.

Lemma list_expenses_follows_the_calendar_witness :
  exists records : list (Store.expense (A := float_amount)),
    run Store.execute (list_expenses "2024-01-06" "2024-01-31") sample_ledger
    = (inr (Sequence (map listed records)), sample_ledger)
    /\ (In (Store.mk_expense (A := float_amount) 2 "2024-01-07" 30%float
                             "Transportation" "" "train"
                             "2024-01-07T08:00:00+00:00") records
        <-> ymd_le (ymd "2024-01-06") (ymd "2024-01-07")
            /\ ymd_le (ymd "2024-01-07") (ymd "2024-01-31")).
Proof.
  apply (list_expenses_follows_the_calendar
           sample_ledger "2024-01-06" "2024-01-31"
           (Store.mk_expense (A := float_amount) 2 "2024-01-07" 30%float
                             "Transportation" "" "train"
                             "2024-01-07T08:00:00+00:00")).
  - reflexivity.
  - reflexivity.
  - reflexivity.
  - simpl. right. left. reflexivity.
Defined.
